(** * eFFORT hybrid model: weight table builder and weight lookup

    Shallow embedding of [eFFORT/hybrid/hybrid_model.py] (class [Hybrid]).

    - numpy float64 values are IEEE 754 binary64 numbers, modelled by the
      Standard Library's [spec_float] at precision 53 and [emax = 1024];
    - Python exceptions are an error monad [result];
    - the parsed JSON configuration is a [json] value, JSON objects being
      finite maps with string keys;
    - a three-dimensional numpy array is a shape together with its element
      function, read through a bounds-checked [getitem3]. *)

From Stdlib Require Import ZArith Bool List Lia.
From Stdlib Require Import Floats.SpecFloat.
From stdpp Require Import base option list gmap strings.

Set Warnings "-register-all".

Local Open Scope Z_scope.

(** ** binary64 arithmetic *)

Module F64.

Definition prec : Z := 53.
Definition emax : Z := 1024.

Abbreviation float := spec_float.

Definition add : float -> float -> float := SFadd prec emax.
Definition sub : float -> float -> float := SFsub prec emax.
Definition mul : float -> float -> float := SFmul prec emax.
Definition div : float -> float -> float := SFdiv prec emax.

Definition ltb : float -> float -> bool := SFltb.
Definition leb : float -> float -> bool := SFleb.
Definition eqb : float -> float -> bool := SFeqb.
(** Python's [a > b] and [a >= b] *)
Definition gtb (a b : float) : bool := SFltb b a.
Definition geb (a b : float) : bool := SFleb b a.

Definition isnan (x : float) : bool :=
  match x with S754_nan => true | _ => false end.

Definition isfinite (x : float) : bool :=
  match x with S754_zero _ | S754_finite _ _ _ => true | _ => false end.

Definition is_zero (x : float) : bool :=
  match x with S754_zero _ => true | _ => false end.

(** the double nearest to an integer *)
Definition of_Z (z : Z) : float := binary_normalize prec emax z 0 false.

(** the double nearest to the decimal literal [n / 10^k], for small [n]
    and [k] (both operands exact, division correctly rounded) *)
Definition dec (n : Z) (k : nat) : float := div (of_Z n) (of_Z (10 ^ Z.of_nat k)).

Definition zero : float := S754_zero false.
Definition one : float := of_Z 1.
Definition pinf : float := S754_infinity false.
Definition ninf : float := S754_infinity true.
Definition nan : float := S754_nan.

End F64.

Abbreviation float := F64.float.

(** ** Order facts on binary64 values *)

Section FloatOrder.

Local Ltac cmp_cases :=
  repeat match goal with
  | H : context [Z.compare ?a ?b] |- _ => destruct (Z.compare_spec a b)
  | |- context [Z.compare ?a ?b] => destruct (Z.compare_spec a b)
  | H : context [Pos.compare_cont Eq ?a ?b] |- _ =>
      change (Pos.compare_cont Eq a b) with (Pos.compare a b) in H;
      destruct (Pos.compare_spec a b)
  | |- context [Pos.compare_cont Eq ?a ?b] =>
      change (Pos.compare_cont Eq a b) with (Pos.compare a b);
      destruct (Pos.compare_spec a b)
  end.

Local Ltac float_order :=
  unfold F64.ltb, F64.leb, F64.eqb, F64.gtb, F64.geb, SFltb, SFleb, SFeqb, F64.isnan;
  intros;
  repeat match goal with
  | x : spec_float |- _ => destruct x as [[]|[]| |[] ? ?]
  end;
  cbn in *; try congruence; try (split; congruence);
  cmp_cases; cbn in *; subst; try congruence; try lia.

Lemma ltb_trans (a b c : float) :
  F64.ltb a b = true -> F64.ltb b c = true -> F64.ltb a c = true.
Proof. float_order. Qed.

Lemma ltb_leb_not_ltb (a b c : float) :
  F64.ltb a b = true -> F64.leb b c = true -> F64.ltb c a = false.
Proof. float_order. Qed.

Lemma ltb_eqb_not_ltb (a b c : float) :
  F64.ltb a b = true -> F64.eqb c b = true -> F64.ltb c a = false.
Proof. float_order. Qed.

Lemma eqb_ltb_ltb (a b c : float) :
  F64.eqb a b = true -> F64.ltb b c = true -> F64.ltb a c = true.
Proof. float_order. Qed.

Lemma eqb_not_ltb (a b : float) :
  F64.eqb a b = true -> F64.ltb a b = false.
Proof. float_order. Qed.

Lemma ltb_not_nan (a b : float) :
  F64.ltb a b = true -> F64.isnan a = false /\ F64.isnan b = false.
Proof. float_order. Qed.

Lemma eqb_not_nan (a b : float) :
  F64.eqb a b = true -> F64.isnan a = false /\ F64.isnan b = false.
Proof. float_order. Qed.

Lemma leb_not_nan (a b : float) :
  F64.leb a b = true -> F64.isnan a = false /\ F64.isnan b = false.
Proof. float_order. Qed.

Lemma ltb_nan_l (a : float) : F64.ltb F64.nan a = false.
Proof. reflexivity. Qed.

Lemma ltb_nan_r (a : float) : F64.ltb a F64.nan = false.
Proof. destruct a; reflexivity. Qed.

Lemma ltb_irrefl (a : float) : F64.ltb a a = false.
Proof. float_order. Qed.

Lemma ltb_asym (a b : float) : F64.ltb a b = true -> F64.ltb b a = false.
Proof. float_order. Qed.

Lemma not_ltb_leb (a b : float) :
  F64.isnan a = false -> F64.isnan b = false ->
  F64.ltb a b = false -> F64.leb b a = true.
Proof. float_order. Qed.

Lemma leb_not_ltb (a b : float) :
  F64.leb a b = true -> F64.ltb b a = false.
Proof. float_order. Qed.

Lemma eqb_leb_sym (a b : float) :
  F64.eqb a b = true -> F64.leb b a = true.
Proof. float_order. Qed.

Lemma eqb_finite_nonzero (a b : float) :
  F64.eqb a b = true -> F64.is_zero a = false -> F64.isfinite a = true ->
  a = b.
Proof.
  unfold F64.eqb, SFeqb, F64.is_zero, F64.isfinite; intros.
  destruct a as [[]|[]| |[] ? ?], b as [[]|[]| |[] ? ?];
    cbn in *; try congruence; cmp_cases; cbn in *; subst; congruence.
Qed.

End FloatOrder.

(** ** Python exceptions *)

Inductive exn : Type :=
  | KeyError
  | IndexError
  | TypeError
  | ValueError.

Inductive result (A : Type) : Type :=
  | Ok (a : A)
  | Raise (e : exn).
Arguments Ok {A} a.
Arguments Raise {A} e.

Definition rbind {A B : Type} (r : result A) (k : A -> result B) : result B :=
  match r with
  | Ok a => k a
  | Raise e => Raise e
  end.

Notation "x <- r ;; k" := (rbind r (fun x => k))
  (at level 100, r at next level, right associativity).

Fixpoint rmapM {A B : Type} (f : A -> result B) (l : list A) : result (list B) :=
  match l with
  | [] => Ok []
  | a :: l' => b <- f a ;; bs <- rmapM f l' ;; Ok (b :: bs)
  end.

(** ** The parsed configuration

    What [json.load] returns: a JSON number is a Python [int] or [float]. *)

Inductive json : Type :=
  | JNull
  | JBool (b : bool)
  | JInt (n : Z)
  | JNum (x : float)
  | JStr (s : string)
  | JArr (l : list json)
  | JObj (m : gmap string json).

(** [v[k]] for a string key [k] *)
Definition getitem_key (v : json) (k : string) : result json :=
  match v with
  | JObj m => match m !! k with Some x => Ok x | None => Raise KeyError end
  | _ => Raise TypeError
  end.

(** [v[i]] for a non-negative integer [i] *)
Definition getitem_idx (v : json) (i : nat) : result json :=
  match v with
  | JArr l => match l !! i with Some x => Ok x | None => Raise IndexError end
  | JStr s =>
      match String.get i s with
      | Some c => Ok (JStr (String c EmptyString))
      | None => Raise IndexError
      end
  | JObj _ => Raise KeyError
  | _ => Raise TypeError
  end.

(** ** Hybrid.__init__ *)

Record Hybrid : Type := {
  bins_mX : json;
  bins_El_B : json;
  bins_q2 : json;
  range_mX : json * json;
  range_El_B : json * json;
  range_q2 : json * json
}.

Section Init.

(** The contents of [hybrid_binning.json], which sits next to the module
    and is read when no path is given. *)
Variable hybrid_binning : json.

(** [hybrid_config] is the parsed contents of the file the caller names,
    [None] when the caller passes no path. *)
Definition init (hybrid_config : option json) : result Hybrid :=
  let config := match hybrid_config with
                | None => hybrid_binning
                | Some c => c
                end in
  bmX <- getitem_key config "BINS_MX" ;;
  bEl <- getitem_key config "BINS_ELB" ;;
  bq2 <- getitem_key config "BINS_Q2" ;;
  mX0 <- getitem_idx bmX 0 ;; mX1 <- getitem_idx bmX 1 ;;
  El0 <- getitem_idx bEl 0 ;; El1 <- getitem_idx bEl 1 ;;
  q20 <- getitem_idx bq2 0 ;; q21 <- getitem_idx bq2 1 ;;
  Ok {| bins_mX := bmX; bins_El_B := bEl; bins_q2 := bq2;
        range_mX := (mX0, mX1);
        range_El_B := (El0, El1);
        range_q2 := (q20, q21) |}.

End Init.

(** ** The numpy functions the class calls

    Modelled on numpy 1.15 and later, for three-dimensional tables and
    samples of shape (N, 3). *)

Module numpy.

(** A three-dimensional array: its shape and its elements; [elem] is
    only read inside the shape. *)
Record ndarray3 (A : Type) : Type := {
  shape : nat * nat * nat;
  elem : nat -> nat -> nat -> A
}.
Arguments shape {A} _.
Arguments elem {A} _ _ _ _.

Definition in_shape (s : nat * nat * nat) (i j k : nat) : bool :=
  let '(n0, n1, n2) := s in
  (i <? n0)%nat && (j <? n1)%nat && (k <? n2)%nat.

(** [a[i, j, k]] for non-negative indices *)
Definition getitem3 {A} (a : ndarray3 A) (i j k : nat) : result A :=
  if in_shape (shape a) i j k then Ok (elem a i j k) else Raise IndexError.

Definition full {A} (s : nat * nat * nat) (v : A) : ndarray3 A :=
  {| shape := s; elem := fun _ _ _ => v |}.

Definition zeros (s : nat * nat * nat) : ndarray3 float := full s F64.zero.
Definition ones (s : nat * nat * nat) : ndarray3 float := full s F64.one.

Definition map1 {A B} (f : A -> B) (a : ndarray3 A) : ndarray3 B :=
  {| shape := shape a; elem := fun i j k => f (elem a i j k) |}.

(** Element-wise binary operation on arrays of one shape (broadcasting
    between different shapes is not modelled: it raises). *)
Definition map2 {A B C} (f : A -> B -> C) (a : ndarray3 A) (b : ndarray3 B)
  : result (ndarray3 C) :=
  if decide (shape a = shape b)
  then Ok {| shape := shape a; elem := fun i j k => f (elem a i j k) (elem b i j k) |}
  else Raise ValueError.

Definition subtract := map2 F64.sub.
Definition divide := map2 F64.div.
Definition isnan := map1 F64.isnan.
(** [a < c] for a scalar [c] *)
Definition less_scalar (a : ndarray3 float) (c : float) : ndarray3 bool :=
  map1 (fun v => F64.ltb v c) a.

(** [numpy.where(cond, x, y)] *)
Definition where_ {A} (cond : ndarray3 bool) (x y : ndarray3 A) : result (ndarray3 A) :=
  if decide (shape cond = shape x /\ shape cond = shape y)
  then Ok {| shape := shape cond;
             elem := fun i j k => if elem cond i j k then elem x i j k else elem y i j k |}
  else Raise ValueError.

(** [numpy.pad(a, [1, 1], 'constant', constant_values=c)]: one slice of
    [c] before and after every axis. *)
Definition pad_1_1 (a : ndarray3 float) (c : float) : ndarray3 float :=
  let '(n0, n1, n2) := shape a in
  {| shape := (n0 + 2, n1 + 2, n2 + 2)%nat;
     elem := fun i j k =>
       if ((1 <=? i) && (i <=? n0) && (1 <=? j) && (j <=? n1)
           && (1 <=? k) && (k <=? n2))%nat
       then elem a (i - 1) (j - 1) (k - 1)%nat
       else c |}.

(** *** Conversion of a Python sequence to a one-dimensional float array.
    Anything that is not a flat sequence of numbers makes the caller fail
    (the exception class is not tracked more precisely). *)
Definition as_float (v : json) : result float :=
  match v with
  | JInt n => Ok (F64.of_Z n)
  | JNum x => Ok x
  | JBool b => Ok (if b then F64.one else F64.zero)
  | JArr _ => Raise ValueError
  | _ => Raise TypeError
  end.

Definition asarray1 (v : json) : result (list float) :=
  match v with
  | JArr l => rmapM as_float l
  | _ => Raise ValueError
  end.

(** *** searchsorted and digitize *)

(** The order numpy sorts by: NaN is larger than every number. *)
Definition sort_lt (a b : float) : bool :=
  F64.ltb a b || (F64.isnan b && negb (F64.isnan a)).

(** [numpy.searchsorted(a, v, side='right')] on a sorted array [a]: the
    index of the first element that sorts after [v], [len(a)] if none.
    numpy finds it by bisection, which gives this index on the sorted,
    NaN-free edge sequences that [digitize] and [histogramdd] accept. *)
Fixpoint searchsorted_right (a : list float) (v : float) : nat :=
  match a with
  | [] => 0%nat
  | e :: a' => if sort_lt v e then 0%nat else S (searchsorted_right a' v)
  end.

Fixpoint nondecreasing_from (prev : float) (a : list float) : bool :=
  match a with
  | [] => true
  | e :: a' => if F64.gtb prev e then false else nondecreasing_from e a'
  end.

Fixpoint nonincreasing_from (prev : float) (a : list float) : bool :=
  match a with
  | [] => true
  | e :: a' => if F64.ltb prev e then false else nonincreasing_from e a'
  end.

Fixpoint skip_repeated (first : float) (a : list float) : list float :=
  match a with
  | [] => []
  | e :: a' => if F64.eqb e first then skip_repeated first a' else a
  end.

(** [_monotonicity(bins)]: 1 when non-decreasing, -1 when non-increasing,
    0 otherwise; leading repetitions of the first value are skipped. *)
Definition monotonicity (bins : list float) : Z :=
  match bins with
  | [] => 1
  | first :: rest =>
      match skip_repeated first rest with
      | [] => 1
      | next :: rest' =>
          if F64.ltb first next
          then (if nondecreasing_from next rest' then 1 else 0)
          else (if nonincreasing_from next rest' then -1 else 0)
      end
  end.

(** [numpy.digitize(x, bins)] with [right=False] *)
Definition digitize (x : list float) (bins : json) : result (list nat) :=
  b <- asarray1 bins ;;
  match monotonicity b with
  | 0 => Raise ValueError
  | Zneg _ =>
      Ok (map (fun v => (length b - searchsorted_right (rev b) v)%nat) x)
  | Zpos _ => Ok (map (searchsorted_right b) x)
  end.

(** *** histogramdd *)

(** [_get_outer_edges(a, range)] when a range is given *)
Definition get_outer_edges (range : json * json) : result (float * float) :=
  first_edge <- as_float (fst range) ;;
  last_edge <- as_float (snd range) ;;
  if F64.gtb first_edge last_edge then Raise ValueError
  else if negb (F64.isfinite first_edge && F64.isfinite last_edge)
  then Raise ValueError
  else if F64.eqb first_edge last_edge
  then Ok (F64.sub first_edge (F64.dec 5 1), F64.add last_edge (F64.dec 5 1))
  else Ok (first_edge, last_edge).

(** [numpy.linspace(start, stop, num)] for [num >= 2] *)
Definition linspace (start stop : float) (num : nat) : list float :=
  let div := F64.of_Z (Z.of_nat (num - 1)) in
  let delta := F64.sub stop start in
  let step := F64.div delta div in
  let y := map (fun i => F64.of_Z (Z.of_nat i)) (seq 0 (num - 1)) in
  let y := if F64.eqb step F64.zero
           then map (fun v => F64.mul (F64.div v div) delta) y
           else map (fun v => F64.mul v step) y in
  map (fun v => F64.add v start) y ++ [stop].

(** [numpy.any(edges[:-1] > edges[1:])] *)
Definition any_decreasing (edges : list float) : bool :=
  match edges with
  | [] => false
  | e :: rest => negb (nondecreasing_from e rest)
  end.

(** The edges of one dimension: an explicit sequence is taken as it is,
    and only a bin count consults [range]. *)
Definition edges_of (bins : json) (range : json * json) : result (list float) :=
  match bins with
  | JArr _ =>
      edges <- asarray1 bins ;;
      if any_decreasing edges then Raise ValueError else Ok edges
  | JInt n =>
      if n <? 1 then Raise ValueError
      else r <- get_outer_edges range ;;
           Ok (linspace (fst r) (snd r) (Z.to_nat n + 1))
  | JBool true =>
      r <- get_outer_edges range ;; Ok (linspace (fst r) (snd r) 2)
  | JBool false => Raise ValueError
  | JNum x => if F64.ltb x F64.one then Raise ValueError else Raise TypeError
  | _ => Raise TypeError
  end.

Definition last_edge (edges : list float) : result float :=
  match last edges with
  | Some e => Ok e
  | None => Raise IndexError
  end.

(** The bin number of a coordinate: [searchsorted(.., side='right')],
    moved one bin to the left on the rightmost edge. *)
Definition bin_number (edges : list float) (rightmost : float) (v : float) : nat :=
  let n := searchsorted_right edges v in
  if F64.eqb v rightmost then (n - 1)%nat else n.

(** [numpy.bincount(xy, weights)] read at the cell [(i, j, k)]: the
    weights of the samples that fall there, added in sample order. *)
Definition bincount3 (xy : list (nat * nat * nat)) (weights : list float)
    (i j k : nat) : float :=
  fold_left
    (fun acc '(idx, w) => if decide (idx = (i, j, k)) then F64.add acc w else acc)
    (zip xy weights) F64.zero.

Definition histogramdd (sample : list (float * float * float))
    (bins : json * json * json)
    (range : (json * json) * (json * json) * (json * json))
    (weights : list float)
  : result (ndarray3 float * (list float * list float * list float)) :=
  let '(b0, b1, b2) := bins in
  let '(r0, r1, r2) := range in
  e0 <- edges_of b0 r0 ;;
  e1 <- edges_of b1 r1 ;;
  e2 <- edges_of b2 r2 ;;
  right0 <- last_edge e0 ;;
  right1 <- last_edge e1 ;;
  right2 <- last_edge e2 ;;
  let Ncount :=
    map (fun '(x0, x1, x2) =>
           (bin_number e0 right0 x0, bin_number e1 right1 x1, bin_number e2 right2 x2))
        sample in
  if negb (length weights =? length sample)%nat then Raise ValueError
  else
    (* the outlier cells 0 and -1 of every axis are cut away *)
    Ok ({| shape := (length e0 - 1, length e1 - 1, length e2 - 1)%nat;
           elem := fun i j k => bincount3 Ncount weights (S i) (S j) (S k) |},
        (e0, e1, e2)).

End numpy.

(** ** The methods of Hybrid *)

Import numpy.

(** A row of an event table: the three coordinates and the event weight. *)
Record event : Type := {
  El_B : float;
  q2 : float;
  mX : float;
  __weight__ : float
}.

(** [df[['El_B', 'q2', 'mX']].values] *)
Definition coordinates (df : list event) : list (float * float * float) :=
  map (fun ev => (El_B ev, q2 ev, mX ev)) df.

(** [x] is the coordinate array of shape (N, 3), one row per event in the
    column order (El_B, q2, mX). *)
Definition calculate_weight (self : Hybrid) (x : list (float * float * float))
    (hybrid_weights : ndarray3 float) : result (list float) :=
  let padded_table := pad_1_1 hybrid_weights F64.zero in
  digitzed_El <- digitize (map (fun r => fst (fst r)) x) (bins_El_B self) ;;
  digitzed_q2 <- digitize (map (fun r => snd (fst r)) x) (bins_q2 self) ;;
  digitzed_mX <- digitize (map (fun r => snd r) x) (bins_mX self) ;;
  rmapM (fun '(i, j, k) => getitem3 padded_table i j k)
        (zip (zip digitzed_El digitzed_q2) digitzed_mX).

Definition generate_hybrid_weights (self : Hybrid) (inclusive exclusive : list event)
  : result (ndarray3 float) :=
  H_exc <- histogramdd (coordinates exclusive)
             (bins_El_B self, bins_q2 self, bins_mX self)
             (range_El_B self, range_q2 self, range_mX self)
             (map __weight__ exclusive) ;;
  H_incl <- histogramdd (coordinates inclusive)
              (bins_El_B self, bins_q2 self, bins_mX self)
              (range_El_B self, range_q2 self, range_mX self)
              (map __weight__ inclusive) ;;
  d <- subtract (fst H_incl) (fst H_exc) ;;
  hybrid_weights <- divide d (fst H_incl) ;;
  hybrid_weights <- where_ (isnan hybrid_weights)
                      (ones (shape hybrid_weights)) hybrid_weights ;;
  hybrid_weights <- where_ (less_scalar hybrid_weights F64.zero)
                      (zeros (shape hybrid_weights)) hybrid_weights ;;
  Ok hybrid_weights.

(** ** Well-formed binnings *)

Fixpoint increasing_from (prev : float) (a : list float) : bool :=
  match a with
  | [] => true
  | e :: a' => F64.ltb prev e && increasing_from e a'
  end.

Definition strictly_increasing (edges : list float) : bool :=
  match edges with
  | [] => true
  | e :: rest => increasing_from e rest
  end.

(** An edge sequence of the data model: at least two edges, strictly
    increasing. *)
Definition valid_edges (edges : list float) : Prop :=
  (2 <= length edges)%nat /\ strictly_increasing edges = true.

(** A JSON array of floats. *)
Definition num_array (edges : list float) : json := JArr (JNum <$> edges).

(** The object holds the three edge sequences [eEl], [eq2] and [emX]. *)
Definition has_binning (self : Hybrid) (eEl eq2 emX : list float) : Prop :=
  bins_El_B self = num_array eEl /\
  bins_q2 self = num_array eq2 /\
  bins_mX self = num_array emX.

(** The shape of the weight table that belongs to a binning. *)
Definition table_shape (eEl eq2 emX : list float) : nat * nat * nat :=
  (length eEl - 1, length eq2 - 1, length emX - 1)%nat.

(** [v] lies in bin [j]: [edges[j] <= v < edges[j+1]]. *)
Definition in_bin (edges : list float) (j : nat) (v : float) : Prop :=
  exists lo hi, edges !! j = Some lo /\ edges !! S j = Some hi /\
                F64.leb lo v = true /\ F64.ltb v hi = true.

Definition first_edge_is (edges : list float) (e : float) : Prop :=
  edges !! 0%nat = Some e.

Definition last_edge_is (edges : list float) (e : float) : Prop :=
  last edges = Some e.

(** ** Facts about the numpy functions *)

Section NumpyFacts.

Lemma rmapM_Ok {A B} (f : A -> result B) (g : A -> B) (l : list A) :
  (forall a, a ∈ l -> f a = Ok (g a)) -> rmapM f l = Ok (map g l).
Proof.
  induction l as [|a l IH]; intros Hf; [done|].
  cbn. rewrite Hf; [|by left]. cbn.
  rewrite IH; [done|]. intros b Hb. apply Hf. by right.
Qed.

Lemma asarray1_num_array (edges : list float) :
  asarray1 (num_array edges) = Ok edges.
Proof.
  unfold asarray1, num_array.
  rewrite (rmapM_Ok _ (fun v => match v with JNum x => x | _ => F64.zero end)).
  - f_equal. induction edges as [|e l IH]; [done|]. cbn. by rewrite IH.
  - intros a Ha. apply list_elem_of_fmap in Ha as (x & -> & _). done.
Qed.

Lemma increasing_from_all (p : float) (a : list float) :
  increasing_from p a = true -> forall e, e ∈ a -> F64.ltb p e = true.
Proof.
  revert p. induction a as [|x a IH]; intros p H e He.
  - by apply elem_of_nil in He.
  - cbn in H. apply andb_true_iff in H as [Hpx Hx].
    apply elem_of_cons in He as [->|He]; [done|].
    eapply ltb_trans; [exact Hpx|]. by apply IH.
Qed.

Lemma increasing_nondecreasing (p : float) (a : list float) :
  increasing_from p a = true -> nondecreasing_from p a = true.
Proof.
  revert p. induction a as [|x a IH]; intros p H; [done|].
  cbn in H. apply andb_true_iff in H as [Hpx Hx]. cbn.
  unfold F64.gtb. change (SFltb x p) with (F64.ltb x p).
  rewrite (ltb_asym _ _ Hpx). by apply IH.
Qed.

Lemma strictly_increasing_app_l (l1 l2 : list float) (x : float) :
  strictly_increasing (l1 ++ x :: l2) = true ->
  forall e, e ∈ l1 -> F64.ltb e x = true.
Proof.
  induction l1 as [|y l1 IH]; intros H e He.
  - by apply elem_of_nil in He.
  - apply elem_of_cons in He as [->|He].
    + cbn in H. eapply increasing_from_all; [exact H|].
      apply elem_of_app. right. by left.
    + apply IH; [|done]. cbn in H. destruct l1 as [|z l1]; cbn in *.
      * by apply elem_of_nil in He.
      * by apply andb_true_iff in H as [_ H].
Qed.

Lemma strictly_increasing_app_r (l1 l2 : list float) :
  strictly_increasing (l1 ++ l2) = true -> strictly_increasing l2 = true.
Proof.
  induction l1 as [|y l1 IH]; intros H; [done|].
  apply IH. cbn in H. destruct (l1 ++ l2) as [|z l] eqn:E; [done|].
  cbn in H. by apply andb_true_iff in H as [_ H].
Qed.

Lemma monotonicity_increasing (edges : list float) :
  strictly_increasing edges = true -> monotonicity edges = 1.
Proof.
  destruct edges as [|a [|b l]]; [done..|]. cbn. intros H.
  apply andb_true_iff in H as [Hab Hb].
  assert (F64.eqb b a = false) as ->.
  { destruct (F64.eqb b a) eqn:E; [|done].
    pose proof (eqb_ltb_ltb _ _ _ E Hab) as H3.
    by rewrite ltb_irrefl in H3. }
  rewrite Hab. by rewrite increasing_nondecreasing.
Qed.

Lemma digitize_increasing (x edges : list float) :
  strictly_increasing edges = true ->
  digitize x (num_array edges) = Ok (map (searchsorted_right edges) x).
Proof.
  intros H. unfold digitize. rewrite asarray1_num_array. cbn.
  by rewrite (monotonicity_increasing _ H).
Qed.

Lemma edges_of_increasing (edges : list float) (r : json * json) :
  strictly_increasing edges = true ->
  edges_of (num_array edges) r = Ok edges.
Proof.
  intros H. unfold edges_of, num_array. fold (num_array edges).
  rewrite asarray1_num_array. cbn.
  destruct edges as [|e l]; [done|]. cbn.
  by rewrite (increasing_nondecreasing _ _ H).
Qed.

(** *** searchsorted on an increasing edge sequence *)

Lemma sort_lt_ltb (v e : float) :
  F64.isnan e = false -> sort_lt v e = F64.ltb v e.
Proof. intros H. unfold sort_lt. rewrite H. by rewrite orb_false_r. Qed.

Lemma searchsorted_right_le (a : list float) (v : float) :
  (searchsorted_right a v <= length a)%nat.
Proof. induction a as [|e a IH]; cbn; [lia|]. destruct (sort_lt v e); lia. Qed.

Lemma searchsorted_right_app (l1 l2 : list float) (v : float) :
  (forall e, e ∈ l1 -> sort_lt v e = false) ->
  searchsorted_right (l1 ++ l2) v = (length l1 + searchsorted_right l2 v)%nat.
Proof.
  induction l1 as [|e l1 IH]; intros H; [done|].
  cbn. rewrite H; [|by left]. f_equal. apply IH.
  intros e' He'. apply H. by right.
Qed.

(** Below the first edge: underflow, index 0. *)
Lemma searchsorted_right_below (edges : list float) (e v : float) :
  first_edge_is edges e -> F64.ltb v e = true ->
  searchsorted_right edges v = 0%nat.
Proof.
  unfold first_edge_is. destruct edges as [|e' l]; [done|]. cbn.
  intros [= ->] H. unfold sort_lt. by rewrite H.
Qed.

Lemma sort_lt_above (v lo e : float) :
  F64.leb lo v = true -> (e = lo \/ F64.ltb e lo = true) -> sort_lt v e = false.
Proof.
  intros Hv [->|He].
  - destruct (leb_not_nan _ _ Hv) as [Hlo _]. rewrite sort_lt_ltb; [|done].
    by apply leb_not_ltb.
  - destruct (ltb_not_nan _ _ He) as [Hn _]. rewrite sort_lt_ltb; [|done].
    by eapply ltb_leb_not_ltb.
Qed.

(** Inside bin [j]: index [j + 1]. *)
Lemma searchsorted_right_in_bin (edges : list float) (j : nat) (v : float) :
  strictly_increasing edges = true -> in_bin edges j v ->
  searchsorted_right edges v = S j.
Proof.
  intros Hinc (lo & hi & Hlo & Hhi & Hle & Hlt).
  pose proof (take_drop_middle _ _ _ Hlo) as Hd.
  assert (drop (S j) edges = hi :: drop (S (S j)) edges) as Hd2.
  { by apply drop_S. }
  rewrite Hd2 in Hd. rewrite <- Hd in Hinc |- *.
  assert (length (take j edges) = j) as Hlen.
  { apply length_take_le. apply lookup_lt_Some in Hlo. lia. }
  change (take j edges ++ lo :: hi :: drop (S (S j)) edges)
    with (take j edges ++ [lo] ++ hi :: drop (S (S j)) edges).
  rewrite app_assoc. rewrite searchsorted_right_app.
  - rewrite length_app, Hlen. cbn.
    assert (sort_lt v hi = true) as ->; [|lia].
    unfold sort_lt. by rewrite Hlt.
  - intros e He. apply (sort_lt_above v lo e Hle).
    apply elem_of_app in He as [He|He].
    + right. eapply strictly_increasing_app_l; [exact Hinc|done].
    + left. by apply list_elem_of_singleton in He.
Qed.

(** On the first edge: the first bin, index 1. *)
Lemma searchsorted_right_first (edges : list float) (e v : float) :
  valid_edges edges -> first_edge_is edges e -> F64.eqb v e = true ->
  searchsorted_right edges v = 1%nat.
Proof.
  intros [Hlen Hinc] He Hv. apply searchsorted_right_in_bin; [done|].
  unfold first_edge_is in He.
  destruct edges as [|a [|b l]]; cbn in Hlen; try lia.
  injection He as ->. exists e, b. repeat split; try done.
  - by apply eqb_leb_sym.
  - cbn in Hinc. apply andb_true_iff in Hinc as [Hab _].
    by eapply eqb_ltb_ltb.
Qed.

(** At or above the last edge: overflow, index [len(edges)]. *)
Lemma searchsorted_right_above (edges : list float) (e v : float) :
  strictly_increasing edges = true -> last_edge_is edges e ->
  F64.leb e v = true ->
  searchsorted_right edges v = length edges.
Proof.
  intros Hinc He Hv. unfold last_edge_is in He.
  apply last_Some in He as [l ->].
  rewrite <- (app_nil_r (l ++ [e])) at 1.
  rewrite searchsorted_right_app; [cbn; lia|].
  intros x Hx. apply (sort_lt_above v e x Hv).
  apply elem_of_app in Hx as [Hx|Hx].
  - right. eapply strictly_increasing_app_l; [exact Hinc|done].
  - left. by apply list_elem_of_singleton in Hx.
Qed.

(** *** The padded table *)

Lemma shape_pad (T : ndarray3 float) (c : float) (n0 n1 n2 : nat) :
  shape T = (n0, n1, n2) ->
  shape (pad_1_1 T c) = (n0 + 2, n1 + 2, n2 + 2)%nat.
Proof. intros H. unfold pad_1_1. by rewrite H. Qed.

Lemma elem_pad_border (T : ndarray3 float) (c : float) (n0 n1 n2 i j k : nat) :
  shape T = (n0, n1, n2) ->
  (i = 0 \/ i = n0 + 1 \/ j = 0 \/ j = n1 + 1 \/ k = 0 \/ k = n2 + 1)%nat ->
  elem (pad_1_1 T c) i j k = c.
Proof.
  intros H Hb. unfold pad_1_1. rewrite H. cbn -[Nat.leb].
  destruct (_ && _) eqn:E; [|done].
  rewrite !andb_true_iff, !Nat.leb_le in E. lia.
Qed.

Lemma elem_pad_interior (T : ndarray3 float) (c : float) (n0 n1 n2 i j k : nat) :
  shape T = (n0, n1, n2) -> (i < n0)%nat -> (j < n1)%nat -> (k < n2)%nat ->
  elem (pad_1_1 T c) (S i) (S j) (S k) = elem T i j k.
Proof.
  intros H Hi Hj Hk. unfold pad_1_1. rewrite H. cbn -[Nat.leb].
  assert ((1 <=? S i)%nat && (S i <=? n0)%nat && (1 <=? S j)%nat
          && (S j <=? n1)%nat && (1 <=? S k)%nat && (S k <=? n2)%nat = true) as ->.
  { repeat (apply andb_true_iff; split); apply Nat.leb_le; lia. }
  by rewrite !Nat.sub_0_r.
Qed.

Lemma getitem3_pad (T : ndarray3 float) (c : float) (n0 n1 n2 i j k : nat) :
  shape T = (n0, n1, n2) ->
  (i <= n0 + 1)%nat -> (j <= n1 + 1)%nat -> (k <= n2 + 1)%nat ->
  getitem3 (pad_1_1 T c) i j k = Ok (elem (pad_1_1 T c) i j k).
Proof.
  intros H Hi Hj Hk. unfold getitem3. rewrite (shape_pad _ _ _ _ _ H).
  unfold in_shape.
  assert ((i <? n0 + 2)%nat && (j <? n1 + 2)%nat && (k <? n2 + 2)%nat = true) as ->;
    [|done].
  repeat (apply andb_true_iff; split); apply Nat.ltb_lt; lia.
Qed.

(** *** calculate_weight, row by row *)

(** The cell of the padded table a row is sent to. *)
Definition lookup_row (eEl eq2 emX : list float) (T : ndarray3 float)
    (row : float * float * float) : float :=
  elem (pad_1_1 T F64.zero)
       (searchsorted_right eEl (fst (fst row)))
       (searchsorted_right eq2 (snd (fst row)))
       (searchsorted_right emX (snd row)).

Lemma fancy_index_rows {A} (P : ndarray3 float) (f g h : A -> nat) (x : list A) :
  (forall r, in_shape (shape P) (f r) (g r) (h r) = true) ->
  rmapM (fun '(i, j, k) => getitem3 P i j k)
        (zip (zip (map f x) (map g x)) (map h x))
  = Ok (map (fun r => elem P (f r) (g r) (h r)) x).
Proof.
  intros Hin. induction x as [|r x IH]; [done|].
  cbn. unfold getitem3 at 1. rewrite Hin. cbn. by rewrite IH.
Qed.

Lemma calculate_weight_rows (self : Hybrid) (eEl eq2 emX : list float)
    (x : list (float * float * float)) (T : ndarray3 float) :
  has_binning self eEl eq2 emX ->
  valid_edges eEl -> valid_edges eq2 -> valid_edges emX ->
  shape T = table_shape eEl eq2 emX ->
  calculate_weight self x T = Ok (map (lookup_row eEl eq2 emX T) x).
Proof.
  intros (HEl & Hq2 & HmX) [LEl IEl] [Lq2 Iq2] [LmX ImX] HT.
  unfold calculate_weight. rewrite HEl, Hq2, HmX.
  rewrite !digitize_increasing by done. cbn [rbind].
  rewrite !map_map.
  rewrite (fancy_index_rows (pad_1_1 T F64.zero)
             (fun r => searchsorted_right eEl (fst (fst r)))
             (fun r => searchsorted_right eq2 (snd (fst r)))
             (fun r => searchsorted_right emX (snd r))); [done|].
  intros r. unfold table_shape in HT.
  rewrite (shape_pad _ _ _ _ _ HT). unfold in_shape.
  pose proof (searchsorted_right_le eEl (fst (fst r))).
  pose proof (searchsorted_right_le eq2 (snd (fst r))).
  pose proof (searchsorted_right_le emX (snd r)).
  repeat (apply andb_true_iff; split); apply Nat.ltb_lt; lia.
Qed.

(** *** The histograms and the weight table *)

(** The call both histograms are built by. *)
Definition histogram (self : Hybrid) (df : list event) :=
  histogramdd (coordinates df)
    (bins_El_B self, bins_q2 self, bins_mX self)
    (range_El_B self, range_q2 self, range_mX self)
    (map __weight__ df).

(** The bin numbers [histogramdd] gives an event (outlier cells included). *)
Definition bin_numbers (eEl eq2 emX : list float) (rEl rq2 rmX : float)
    (ev : event) : nat * nat * nat :=
  (bin_number eEl rEl (El_B ev), bin_number eq2 rq2 (q2 ev),
   bin_number emX rmX (mX ev)).

Definition histogram_of (eEl eq2 emX : list float) (rEl rq2 rmX : float)
    (df : list event) : ndarray3 float :=
  {| shape := table_shape eEl eq2 emX;
     elem := fun i j k =>
       bincount3 (map (bin_numbers eEl eq2 emX rEl rq2 rmX) df)
                 (map __weight__ df) (S i) (S j) (S k) |}.

Lemma valid_edges_last (edges : list float) :
  valid_edges edges -> exists r, last_edge_is edges r.
Proof.
  intros [Hlen _]. unfold last_edge_is.
  destruct (last edges) as [r|] eqn:E; [by exists r|].
  apply last_None in E. subst. cbn in Hlen. lia.
Qed.

Lemma histogram_valid (self : Hybrid) (eEl eq2 emX : list float)
    (rEl rq2 rmX : float) (df : list event) :
  has_binning self eEl eq2 emX ->
  valid_edges eEl -> valid_edges eq2 -> valid_edges emX ->
  last_edge_is eEl rEl -> last_edge_is eq2 rq2 -> last_edge_is emX rmX ->
  histogram self df
  = Ok (histogram_of eEl eq2 emX rEl rq2 rmX df, (eEl, eq2, emX)).
Proof.
  intros (HEl & Hq2 & HmX) [LEl IEl] [Lq2 Iq2] [LmX ImX] REl Rq2 RmX.
  unfold histogram, histogramdd. rewrite HEl, Hq2, HmX.
  rewrite !edges_of_increasing by done. cbn [rbind].
  unfold last_edge. unfold last_edge_is in *. rewrite REl, Rq2, RmX. cbn [rbind].
  unfold coordinates. rewrite !length_map, Nat.eqb_refl. cbn [negb].
  rewrite map_map. done.
Qed.

(** The ratio of one bin, and what the two replacements leave of it. *)
Definition raw_ratio (h_incl h_exc : float) : float :=
  F64.div (F64.sub h_incl h_exc) h_incl.

Definition replaced (w : float) : float :=
  let w1 := if F64.isnan w then F64.one else w in
  if F64.ltb w1 F64.zero then F64.zero else w1.

Lemma generate_hybrid_weights_cells (self : Hybrid) (eEl eq2 emX : list float)
    (rEl rq2 rmX : float) (inclusive exclusive : list event) :
  has_binning self eEl eq2 emX ->
  valid_edges eEl -> valid_edges eq2 -> valid_edges emX ->
  last_edge_is eEl rEl -> last_edge_is eq2 rq2 -> last_edge_is emX rmX ->
  exists W,
    generate_hybrid_weights self inclusive exclusive = Ok W /\
    shape W = table_shape eEl eq2 emX /\
    forall i j k,
      elem W i j k
      = replaced (raw_ratio
          (elem (histogram_of eEl eq2 emX rEl rq2 rmX inclusive) i j k)
          (elem (histogram_of eEl eq2 emX rEl rq2 rmX exclusive) i j k)).
Proof.
  intros Hb VEl Vq2 VmX REl Rq2 RmX.
  unfold generate_hybrid_weights.
  pose proof (histogram_valid self _ _ _ _ _ _ exclusive Hb VEl Vq2 VmX REl Rq2 RmX) as He.
  pose proof (histogram_valid self _ _ _ _ _ _ inclusive Hb VEl Vq2 VmX REl Rq2 RmX) as Hi.
  unfold histogram in He, Hi. rewrite He, Hi. cbn [rbind fst].
  unfold subtract, divide, map2, where_, isnan, less_scalar, map1, ones, zeros, full.
  cbn [shape elem rbind].
  repeat (rewrite decide_True by (repeat split; reflexivity);
          cbn [rbind shape elem]).
  eexists. split; [done|]. split; [done|]. cbn [elem]. done.
Qed.

End NumpyFacts.

(** ** Concrete configurations *)

(** The parsed contents of a configuration file with the three keys. *)
Definition config_of (edges_El edges_q2 edges_mX : list float) : json :=
  JObj (<["BINS_MX" := num_array edges_mX]>
        (<["BINS_ELB" := num_array edges_El]>
         (<["BINS_Q2" := num_array edges_q2]> ∅))).

(** The same file with one key left out. *)
Definition config_without (key : string) (edges_El edges_q2 edges_mX : list float)
  : json :=
  JObj (delete key
         (<["BINS_MX" := num_array edges_mX]>
          (<["BINS_ELB" := num_array edges_El]>
           (<["BINS_Q2" := num_array edges_q2]> ∅)))).

(** Edges 0, 1, 2: two bins per dimension. *)
Definition edges012 : list float := [F64.of_Z 0; F64.of_Z 1; F64.of_Z 2].

(** Edges 1, 0: not increasing. *)
Definition edges10 : list float := [F64.of_Z 1; F64.of_Z 0].

(** The object [Hybrid(path)] for a file holding [edges012] three times. *)
Definition hybrid012 : Hybrid :=
  {| bins_mX := num_array edges012;
     bins_El_B := num_array edges012;
     bins_q2 := num_array edges012;
     range_mX := (JNum (F64.of_Z 0), JNum (F64.of_Z 1));
     range_El_B := (JNum (F64.of_Z 0), JNum (F64.of_Z 1));
     range_q2 := (JNum (F64.of_Z 0), JNum (F64.of_Z 1)) |}.

(** The same binning with the range of every dimension set to
    (first edge, last edge). *)
Definition hybrid012_full_range : Hybrid :=
  {| bins_mX := num_array edges012;
     bins_El_B := num_array edges012;
     bins_q2 := num_array edges012;
     range_mX := (JNum (F64.of_Z 0), JNum (F64.of_Z 2));
     range_El_B := (JNum (F64.of_Z 0), JNum (F64.of_Z 2));
     range_q2 := (JNum (F64.of_Z 0), JNum (F64.of_Z 2)) |}.

Definition mk_event (a b c w : Z) : event :=
  {| El_B := F64.of_Z a; q2 := F64.of_Z b; mX := F64.of_Z c;
     __weight__ := F64.of_Z w |}.

Definition mk_row (a b c : Z) : float * float * float :=
  (F64.of_Z a, F64.of_Z b, F64.of_Z c).

(** An all-ones table of the shape that belongs to [edges012]. *)
Definition ones222 : ndarray3 float := ones (2, 2, 2)%nat.

Example init_hybrid012 (d : json) :
  init d (Some (config_of edges012 edges012 edges012)) = Ok hybrid012.
Proof. reflexivity. Qed.

Example hybrid012_binning : has_binning hybrid012 edges012 edges012 edges012.
Proof. by repeat split. Qed.

Example edges012_valid : valid_edges edges012.
Proof. split; [cbn; lia | reflexivity]. Qed.

(** ** Hybrid.__init__: what is checked when the configuration is loaded *)

Section InitFacts.

Variable hybrid_binning : json.

Lemma getitem_idx_num_array (edges : list float) (i : nat) (e : float) :
  edges !! i = Some e -> getitem_idx (num_array edges) i = Ok (JNum e).
Proof.
  intros H. unfold getitem_idx, num_array.
  by rewrite list_lookup_fmap, H.
Qed.

Lemma init_config_of (eEl eq2 emX : list float) (El0 El1 q20 q21 mX0 mX1 : float) :
  eEl !! 0%nat = Some El0 -> eEl !! 1%nat = Some El1 ->
  eq2 !! 0%nat = Some q20 -> eq2 !! 1%nat = Some q21 ->
  emX !! 0%nat = Some mX0 -> emX !! 1%nat = Some mX1 ->
  init hybrid_binning (Some (config_of eEl eq2 emX))
  = Ok {| bins_mX := num_array emX;
          bins_El_B := num_array eEl;
          bins_q2 := num_array eq2;
          range_mX := (JNum mX0, JNum mX1);
          range_El_B := (JNum El0, JNum El1);
          range_q2 := (JNum q20, JNum q21) |}.
Proof.
  intros HEl0 HEl1 Hq20 Hq21 HmX0 HmX1.
  unfold init, config_of, getitem_key.
  rewrite lookup_insert_eq. cbn [rbind].
  rewrite lookup_insert_ne by done. rewrite lookup_insert_eq. cbn [rbind].
  rewrite !lookup_insert_ne by done. rewrite lookup_insert_eq. cbn [rbind].
  rewrite (getitem_idx_num_array _ _ _ HmX0), (getitem_idx_num_array _ _ _ HmX1).
  rewrite (getitem_idx_num_array _ _ _ HEl0), (getitem_idx_num_array _ _ _ HEl1).
  rewrite (getitem_idx_num_array _ _ _ Hq20), (getitem_idx_num_array _ _ _ Hq21).
  done.
Qed.

Lemma init_missing_key (key : string) (eEl eq2 emX : list float) :
  key = "BINS_MX" \/ key = "BINS_ELB" \/ key = "BINS_Q2" ->
  init hybrid_binning (Some (config_without key eEl eq2 emX)) = Raise KeyError.
Proof.
  intros [-> | [-> | ->]]; unfold init, config_without, getitem_key.
  - by rewrite lookup_delete_eq.
  - rewrite lookup_delete_ne by done. rewrite lookup_insert_eq. cbn [rbind].
    by rewrite lookup_delete_eq.
  - rewrite lookup_delete_ne by done. rewrite lookup_insert_eq. cbn [rbind].
    rewrite lookup_delete_ne by done. rewrite lookup_insert_ne by done.
    rewrite lookup_insert_eq. cbn [rbind].
    by rewrite lookup_delete_eq.
Qed.

End InitFacts.

(** ** Loading the configuration *)

(** C8, as stated, fails: a file whose mass edges are 1, 0 loads, and the
    object holds that decreasing sequence. *)
Lemma init_accepts_decreasing_edges :
  exists self,
    init JNull (Some (config_of edges012 edges012 edges10)) = Ok self /\
    has_binning self edges012 edges012 edges10 /\
    strictly_increasing edges10 = false.
Proof.
  eexists. split; [reflexivity|]. split; [by repeat split | reflexivity].
Qed.

(** C8, amended: loading checks only that the three keys are present and
    that each value has a first and a second element.  A file with the three
    keys loads whatever the order of the edges, the object holds the three
    sequences as given and the ranges are (first edge, second edge); a file
    that lacks one of the keys raises KeyError. *)
Theorem init_checks_keys_only (hybrid_binning : json) (eEl eq2 emX : list float)
    (El0 El1 q20 q21 mX0 mX1 : float) :
  eEl !! 0%nat = Some El0 -> eEl !! 1%nat = Some El1 ->
  eq2 !! 0%nat = Some q20 -> eq2 !! 1%nat = Some q21 ->
  emX !! 0%nat = Some mX0 -> emX !! 1%nat = Some mX1 ->
  (exists self,
     init hybrid_binning (Some (config_of eEl eq2 emX)) = Ok self /\
     has_binning self eEl eq2 emX /\
     range_El_B self = (JNum El0, JNum El1) /\
     range_q2 self = (JNum q20, JNum q21) /\
     range_mX self = (JNum mX0, JNum mX1)) /\
  init hybrid_binning (Some (config_without "BINS_MX" eEl eq2 emX)) = Raise KeyError /\
  init hybrid_binning (Some (config_without "BINS_ELB" eEl eq2 emX)) = Raise KeyError /\
  init hybrid_binning (Some (config_without "BINS_Q2" eEl eq2 emX)) = Raise KeyError.
Proof.
  intros HEl0 HEl1 Hq20 Hq21 HmX0 HmX1. split.
  - eexists. split.
    + by apply init_config_of.
    + by repeat split.
  - repeat split; apply init_missing_key; auto.
Qed.

Lemma init_checks_keys_only_witness :
  (exists self,
     init JNull (Some (config_of edges012 edges012 edges10)) = Ok self /\
     has_binning self edges012 edges012 edges10 /\
     range_El_B self = (JNum (F64.of_Z 0), JNum (F64.of_Z 1)) /\
     range_q2 self = (JNum (F64.of_Z 0), JNum (F64.of_Z 1)) /\
     range_mX self = (JNum (F64.of_Z 1), JNum (F64.of_Z 0))) /\
  init JNull (Some (config_without "BINS_MX" edges012 edges012 edges10)) = Raise KeyError /\
  init JNull (Some (config_without "BINS_ELB" edges012 edges012 edges10)) = Raise KeyError /\
  init JNull (Some (config_without "BINS_Q2" edges012 edges012 edges10)) = Raise KeyError.
Proof.
  apply (init_checks_keys_only JNull edges012 edges012 edges10); reflexivity.
Defined.

(** ** The range passed to the histograms *)

(** C7, as stated, fails: with the edges 0, 1, 2 in every dimension, no
    event table gives a histogram under the ranges (first edge, second
    edge) that differs from the one under (first edge, last edge). *)
Lemma range_first_second_changes_nothing :
  ~ exists df : list event,
      histogram hybrid012 df <> histogram hybrid012_full_range df.
Proof. intros [df H]. apply H. reflexivity. Qed.

Definition is_sequence (v : json) : Prop := exists l, v = JArr l.

(** C7, amended: the class passes explicit edge sequences as [bins], and
    then the range takes no part in the histograms: two objects with the
    same edge sequences and any two choices of ranges build the same
    histograms and the same weight table from every pair of tables. *)
Theorem range_is_ignored (self self' : Hybrid) (inclusive exclusive : list event) :
  is_sequence (bins_El_B self) -> is_sequence (bins_q2 self) ->
  is_sequence (bins_mX self) ->
  bins_El_B self' = bins_El_B self -> bins_q2 self' = bins_q2 self ->
  bins_mX self' = bins_mX self ->
  histogram self' inclusive = histogram self inclusive /\
  histogram self' exclusive = histogram self exclusive /\
  generate_hybrid_weights self' inclusive exclusive
  = generate_hybrid_weights self inclusive exclusive.
Proof.
  intros [lEl HEl] [lq2 Hq2] [lmX HmX] HEl' Hq2' HmX'.
  unfold generate_hybrid_weights, histogram, histogramdd.
  rewrite HEl', Hq2', HmX', HEl, Hq2, HmX.
  destruct (range_El_B self), (range_q2 self), (range_mX self).
  destruct (range_El_B self'), (range_q2 self'), (range_mX self').
  repeat split; reflexivity.
Qed.

Lemma range_is_ignored_witness :
  is_sequence (bins_El_B hybrid012) /\
  histogram hybrid012_full_range [mk_event 1 1 1 1] = histogram hybrid012 [mk_event 1 1 1 1] /\
  histogram hybrid012_full_range [] = histogram hybrid012 [] /\
  generate_hybrid_weights hybrid012_full_range [mk_event 1 1 1 1] []
  = generate_hybrid_weights hybrid012 [mk_event 1 1 1 1] [].
Proof.
  split; [by eexists|].
  apply (range_is_ignored hybrid012 hybrid012_full_range [mk_event 1 1 1 1] []);
    first [by eexists | reflexivity].
Defined.

(** The range does matter once a dimension is given as a number of bins:
    one bin over (0, 1) and one bin over (0, 2) have different edges. *)
Example range_matters_for_bin_counts :
  let r01 := (JNum (F64.of_Z 0), JNum (F64.of_Z 1)) in
  let r02 := (JNum (F64.of_Z 0), JNum (F64.of_Z 2)) in
  edges_of (JInt 1) r01 = Ok [F64.of_Z 0; F64.of_Z 1] /\
  edges_of (JInt 1) r02 = Ok [F64.of_Z 0; F64.of_Z 2].
Proof. split; vm_compute; reflexivity. Qed.

(** An event at 1.5 in every dimension, beyond the second edge, is counted
    in the second bin although the range passed is (0, 1). *)
Example event_beyond_second_edge_counted :
  let ev := {| El_B := F64.dec 15 1; q2 := F64.dec 15 1; mX := F64.dec 15 1;
               __weight__ := F64.of_Z 1 |} in
  (h <- histogram hybrid012 [ev] ;; getitem3 (fst h) 1 1 1) = Ok F64.one.
Proof. vm_compute. reflexivity. Qed.

(** ** Weight lookup *)

(** A coordinate outside the binning of its dimension: below the first
    edge, or at or above the last edge. *)
Definition below_first (edges : list float) (v : float) : Prop :=
  exists e, first_edge_is edges e /\ F64.ltb v e = true.

Definition at_or_above_last (edges : list float) (v : float) : Prop :=
  exists e, last_edge_is edges e /\ F64.leb e v = true.

Definition outside (edges : list float) (v : float) : Prop :=
  below_first edges v \/ at_or_above_last edges v.

(** A coordinate exactly on the first edge. *)
Definition on_first_edge (edges : list float) (v : float) : Prop :=
  exists e, first_edge_is edges e /\ F64.eqb v e = true.

(** A coordinate exactly on the last edge. *)
Definition on_last_edge (edges : list float) (v : float) : Prop :=
  exists e, last_edge_is edges e /\ F64.eqb v e = true.

Section LookupFacts.

Variables eEl eq2 emX : list float.
Hypothesis VEl : valid_edges eEl.
Hypothesis Vq2 : valid_edges eq2.
Hypothesis VmX : valid_edges emX.

Variable T : ndarray3 float.
Hypothesis HT : shape T = table_shape eEl eq2 emX.

Lemma in_bin_lt (edges : list float) (j : nat) (v : float) :
  in_bin edges j v -> (j < length edges - 1)%nat.
Proof.
  intros (lo & hi & _ & Hhi & _). apply lookup_lt_Some in Hhi. lia.
Qed.

Lemma on_first_edge_in_bin (edges : list float) (v : float) :
  valid_edges edges -> on_first_edge edges v -> in_bin edges 0 v.
Proof.
  intros [Hlen Hinc] (e & He & Hv). unfold first_edge_is in He.
  destruct edges as [|a [|b l]]; cbn in Hlen; try lia.
  injection He as ->. exists e, b. repeat split; try done.
  - by apply eqb_leb_sym.
  - cbn in Hinc. apply andb_true_iff in Hinc as [Hab _].
    by eapply eqb_ltb_ltb.
Qed.

Lemma outside_index (edges : list float) (v : float) :
  valid_edges edges -> outside edges v ->
  searchsorted_right edges v = 0%nat \/
  searchsorted_right edges v = (length edges - 1 + 1)%nat.
Proof.
  intros [Hlen Hinc] [(e & He & Hv)|(e & He & Hv)].
  - left. by eapply searchsorted_right_below.
  - right. rewrite (searchsorted_right_above edges e v) by done. lia.
Qed.

(** A row with a coordinate outside its binning reads a padding cell. *)
Lemma lookup_row_outside (a b c : float) :
  outside eEl a \/ outside eq2 b \/ outside emX c ->
  lookup_row eEl eq2 emX T (a, b, c) = F64.zero.
Proof.
  intros Hout. unfold lookup_row. cbn [fst snd].
  apply (elem_pad_border T F64.zero _ _ _ _ _ _ HT).
  destruct Hout as [H|[H|H]].
  - destruct (outside_index _ _ VEl H); auto.
  - destruct (outside_index _ _ Vq2 H); auto 10.
  - destruct (outside_index _ _ VmX H); auto 10.
Qed.

(** A row inside the bins [i], [j], [k] reads that cell of the table. *)
Lemma lookup_row_in_bins (a b c : float) (i j k : nat) :
  in_bin eEl i a -> in_bin eq2 j b -> in_bin emX k c ->
  lookup_row eEl eq2 emX T (a, b, c) = elem T i j k.
Proof.
  intros Ha Hb Hc. unfold lookup_row. cbn [fst snd].
  destruct VEl as [_ IEl], Vq2 as [_ Iq2], VmX as [_ ImX].
  rewrite (searchsorted_right_in_bin _ _ _ IEl Ha).
  rewrite (searchsorted_right_in_bin _ _ _ Iq2 Hb).
  rewrite (searchsorted_right_in_bin _ _ _ ImX Hc).
  apply (elem_pad_interior T F64.zero _ _ _ _ _ _ HT);
    [exact (in_bin_lt _ _ _ Ha) | exact (in_bin_lt _ _ _ Hb)
    | exact (in_bin_lt _ _ _ Hc)].
Qed.

End LookupFacts.

(** C3, as stated, fails: the table is padded by one slice and indexed
    without a check of its shape.  With the edges 0, 1, 2 a row at El_B = 2
    (on the last edge) is digitized to index 3: a table with one El_B bin
    has a padded axis of size 3 and the lookup raises IndexError, and a
    table with three El_B bins returns its entry, 1, not 0. *)
Lemma stale_table_breaks_lookup :
  at_or_above_last edges012 (F64.of_Z 2) /\
  calculate_weight hybrid012 [mk_row 2 0 0] (ones (1, 2, 2)%nat)
  = Raise IndexError /\
  calculate_weight hybrid012 [mk_row 2 0 0] (ones (3, 2, 2)%nat)
  = Ok [F64.one] /\
  F64.eqb F64.one F64.zero = false.
Proof.
  split; [eexists; split; reflexivity|].
  repeat split; vm_compute; reflexivity.
Qed.

(** C3, amended: for every table of the shape that belongs to the binning
    (one entry per bin) and every coordinate array, the lookup returns (no
    IndexError), one weight per row, and every row with a coordinate below
    the first edge or at or above the last edge of its dimension gets the
    weight 0 of the padding. *)
Theorem calculate_weight_outside_is_zero (self : Hybrid) (eEl eq2 emX : list float)
    (T : ndarray3 float) (x : list (float * float * float)) :
  has_binning self eEl eq2 emX ->
  valid_edges eEl -> valid_edges eq2 -> valid_edges emX ->
  shape T = table_shape eEl eq2 emX ->
  exists ws,
    calculate_weight self x T = Ok ws /\
    length ws = length x /\
    forall n a b c,
      x !! n = Some (a, b, c) ->
      outside eEl a \/ outside eq2 b \/ outside emX c ->
      ws !! n = Some F64.zero.
Proof.
  intros Hb VEl Vq2 VmX HT.
  exists (map (lookup_row eEl eq2 emX T) x). split; [|split].
  - by apply calculate_weight_rows.
  - by rewrite length_map.
  - intros n a b c Hn Hout.
    change (map (lookup_row eEl eq2 emX T) x) with (lookup_row eEl eq2 emX T <$> x).
    rewrite list_lookup_fmap, Hn. cbn. f_equal.
    by apply lookup_row_outside.
Qed.

Lemma calculate_weight_outside_is_zero_witness :
  has_binning hybrid012 edges012 edges012 edges012 /\
  valid_edges edges012 /\
  shape ones222 = table_shape edges012 edges012 edges012 /\
  exists ws,
    calculate_weight hybrid012 [mk_row (-1) 0 0; mk_row 0 2 0; mk_row 0 0 0] ones222
    = Ok ws /\
    length ws = 3%nat /\
    forall n a b c,
      [mk_row (-1) 0 0; mk_row 0 2 0; mk_row 0 0 0] !! n = Some (a, b, c) ->
      outside edges012 a \/ outside edges012 b \/ outside edges012 c ->
      ws !! n = Some F64.zero.
Proof.
  split; [exact hybrid012_binning|]. split; [exact edges012_valid|].
  split; [reflexivity|].
  apply (calculate_weight_outside_is_zero hybrid012 edges012 edges012 edges012 ones222
           [mk_row (-1) 0 0; mk_row 0 2 0; mk_row 0 0 0]).
  - exact hybrid012_binning.
  - exact edges012_valid.
  - exact edges012_valid.
  - exact edges012_valid.
  - reflexivity.
Defined.

Example calculate_weight_outside_example :
  calculate_weight hybrid012 [mk_row (-1) 0 0; mk_row 0 2 0; mk_row 0 0 0] ones222
  = Ok [F64.zero; F64.zero; F64.one].
Proof. vm_compute. reflexivity. Qed.

(** The indices [digitize] gives at the two ends of a binning: 0 below the
    first edge, 1 on it, [len(edges)] at or above the last edge. *)
Lemma digitize_boundaries (edges : list float) (v : float) :
  valid_edges edges ->
  exists n,
    digitize [v] (num_array edges) = Ok [n] /\
    (below_first edges v -> n = 0%nat) /\
    (on_first_edge edges v -> n = 1%nat) /\
    (at_or_above_last edges v -> n = length edges).
Proof.
  intros [Hlen Hinc]. exists (searchsorted_right edges v).
  split; [by rewrite digitize_increasing|]. repeat split.
  - intros (e & He & Hv). by eapply searchsorted_right_below.
  - intros (e & He & Hv). by eapply searchsorted_right_first.
  - intros (e & He & Hv). by eapply searchsorted_right_above.
Qed.

(** C4: a row whose coordinate is exactly on the first edge of a dimension
    reads the table at bin 0 of that dimension (the other two coordinates
    lying in bins of their own), and a row with a coordinate at or above
    the last edge of a dimension gets weight 0. *)
Theorem calculate_weight_boundaries (self : Hybrid) (eEl eq2 emX : list float)
    (T : ndarray3 float) (x : list (float * float * float)) :
  has_binning self eEl eq2 emX ->
  valid_edges eEl -> valid_edges eq2 -> valid_edges emX ->
  shape T = table_shape eEl eq2 emX ->
  exists ws,
    calculate_weight self x T = Ok ws /\
    forall n a b c,
      x !! n = Some (a, b, c) ->
      (forall j k, on_first_edge eEl a -> in_bin eq2 j b -> in_bin emX k c ->
                   ws !! n = Some (elem T 0 j k)) /\
      (forall i k, in_bin eEl i a -> on_first_edge eq2 b -> in_bin emX k c ->
                   ws !! n = Some (elem T i 0 k)) /\
      (forall i j, in_bin eEl i a -> in_bin eq2 j b -> on_first_edge emX c ->
                   ws !! n = Some (elem T i j 0)) /\
      (at_or_above_last eEl a \/ at_or_above_last eq2 b \/ at_or_above_last emX c ->
       ws !! n = Some F64.zero).
Proof.
  intros Hb VEl Vq2 VmX HT.
  exists (map (lookup_row eEl eq2 emX T) x). split.
  - by apply calculate_weight_rows.
  - intros n a b c Hn.
    change (map (lookup_row eEl eq2 emX T) x) with (lookup_row eEl eq2 emX T <$> x).
    rewrite list_lookup_fmap, Hn. cbn. repeat split.
    + intros j k Ha Hj Hk. f_equal.
      apply (lookup_row_in_bins eEl eq2 emX VEl Vq2 VmX T HT); try done.
      by apply on_first_edge_in_bin.
    + intros i k Hi Hb' Hk. f_equal.
      apply (lookup_row_in_bins eEl eq2 emX VEl Vq2 VmX T HT); try done.
      by apply on_first_edge_in_bin.
    + intros i j Hi Hj Hc. f_equal.
      apply (lookup_row_in_bins eEl eq2 emX VEl Vq2 VmX T HT); try done.
      by apply on_first_edge_in_bin.
    + intros Hout. f_equal.
      apply (lookup_row_outside eEl eq2 emX VEl Vq2 VmX T HT).
      unfold outside. tauto.
Qed.

Lemma calculate_weight_boundaries_witness :
  has_binning hybrid012 edges012 edges012 edges012 /\
  valid_edges edges012 /\
  shape ones222 = table_shape edges012 edges012 edges012 /\
  exists ws,
    calculate_weight hybrid012 [mk_row 0 1 1; mk_row 2 1 1] ones222 = Ok ws /\
    forall n a b c,
      [mk_row 0 1 1; mk_row 2 1 1] !! n = Some (a, b, c) ->
      (forall j k, on_first_edge edges012 a -> in_bin edges012 j b ->
                   in_bin edges012 k c -> ws !! n = Some (elem ones222 0 j k)) /\
      (forall i k, in_bin edges012 i a -> on_first_edge edges012 b ->
                   in_bin edges012 k c -> ws !! n = Some (elem ones222 i 0 k)) /\
      (forall i j, in_bin edges012 i a -> in_bin edges012 j b ->
                   on_first_edge edges012 c -> ws !! n = Some (elem ones222 i j 0)) /\
      (at_or_above_last edges012 a \/ at_or_above_last edges012 b
       \/ at_or_above_last edges012 c ->
       ws !! n = Some F64.zero).
Proof.
  split; [exact hybrid012_binning|]. split; [exact edges012_valid|].
  split; [reflexivity|].
  apply (calculate_weight_boundaries hybrid012 edges012 edges012 edges012 ones222
           [mk_row 0 1 1; mk_row 2 1 1]).
  - exact hybrid012_binning.
  - exact edges012_valid.
  - exact edges012_valid.
  - exact edges012_valid.
  - reflexivity.
Defined.

Example calculate_weight_boundaries_example :
  on_first_edge edges012 (F64.of_Z 0) /\
  at_or_above_last edges012 (F64.of_Z 2) /\
  calculate_weight hybrid012 [mk_row 0 1 1; mk_row 2 1 1] ones222
  = Ok [F64.one; F64.zero].
Proof.
  split; [|split].
  - eexists. split; reflexivity.
  - eexists. split; reflexivity.
  - vm_compute. reflexivity.
Qed.

(** C9, as stated, fails: with a table that has one El_B bin where the
    binning has two, the array with the single row (0, 0, 0) gets the
    weight 1, and the array with the same first row and the second row
    (2, 0, 0) gets no weights at all: the second row raises IndexError. *)
Lemma stale_table_row_depends_on_others :
  [mk_row 0 0 0] !! 0%nat = [mk_row 0 0 0; mk_row 2 0 0] !! 0%nat /\
  calculate_weight hybrid012 [mk_row 0 0 0] (ones (1, 2, 2)%nat) = Ok [F64.one] /\
  calculate_weight hybrid012 [mk_row 0 0 0; mk_row 2 0 0] (ones (1, 2, 2)%nat)
  = Raise IndexError.
Proof. repeat split; vm_compute; reflexivity. Qed.

(** C9, amended: for every table of the shape that belongs to the binning,
    the lookup returns one weight per row, in row order, and the weight at
    position [n] is a function of row [n] and the table: two coordinate
    arrays that agree on row [n] get the same weight there. *)
Theorem calculate_weight_rowwise (self : Hybrid) (eEl eq2 emX : list float)
    (T : ndarray3 float) (x x' : list (float * float * float)) (n : nat) :
  has_binning self eEl eq2 emX ->
  valid_edges eEl -> valid_edges eq2 -> valid_edges emX ->
  shape T = table_shape eEl eq2 emX ->
  x !! n = x' !! n ->
  exists ws ws',
    calculate_weight self x T = Ok ws /\
    calculate_weight self x' T = Ok ws' /\
    length ws = length x /\
    length ws' = length x' /\
    (forall m, ws !! m = lookup_row eEl eq2 emX T <$> x !! m) /\
    (forall m, ws' !! m = lookup_row eEl eq2 emX T <$> x' !! m) /\
    ws !! n = ws' !! n.
Proof.
  intros Hb VEl Vq2 VmX HT Hn.
  exists (lookup_row eEl eq2 emX T <$> x), (lookup_row eEl eq2 emX T <$> x').
  repeat split.
  - by apply calculate_weight_rows.
  - by apply calculate_weight_rows.
  - by rewrite length_fmap.
  - by rewrite length_fmap.
  - intros m. by rewrite list_lookup_fmap.
  - intros m. by rewrite list_lookup_fmap.
  - by rewrite !list_lookup_fmap, Hn.
Qed.

Lemma calculate_weight_rowwise_witness :
  has_binning hybrid012 edges012 edges012 edges012 /\
  valid_edges edges012 /\
  shape ones222 = table_shape edges012 edges012 edges012 /\
  [mk_row 0 1 1; mk_row 2 1 1] !! 0%nat = [mk_row 0 1 1; mk_row 5 5 5; mk_row 1 1 1] !! 0%nat /\
  exists ws ws',
    calculate_weight hybrid012 [mk_row 0 1 1; mk_row 2 1 1] ones222 = Ok ws /\
    calculate_weight hybrid012 [mk_row 0 1 1; mk_row 5 5 5; mk_row 1 1 1] ones222 = Ok ws' /\
    length ws = 2%nat /\
    length ws' = 3%nat /\
    (forall m, ws !! m
               = lookup_row edges012 edges012 edges012 ones222
                   <$> [mk_row 0 1 1; mk_row 2 1 1] !! m) /\
    (forall m, ws' !! m
               = lookup_row edges012 edges012 edges012 ones222
                   <$> [mk_row 0 1 1; mk_row 5 5 5; mk_row 1 1 1] !! m) /\
    ws !! 0%nat = ws' !! 0%nat.
Proof.
  split; [exact hybrid012_binning|]. split; [exact edges012_valid|].
  split; [reflexivity|]. split; [reflexivity|].
  apply (calculate_weight_rowwise hybrid012 edges012 edges012 edges012 ones222
           [mk_row 0 1 1; mk_row 2 1 1]
           [mk_row 0 1 1; mk_row 5 5 5; mk_row 1 1 1] 0).
  - exact hybrid012_binning.
  - exact edges012_valid.
  - exact edges012_valid.
  - exact edges012_valid.
  - reflexivity.
  - reflexivity.
Defined.

(** ** The histograms *)

(** The bin of a histogram a coordinate is counted in: bin [i] when
    [edges[i] <= v < edges[i+1]], and the last bin when [v] is exactly on
    the last edge. *)
Definition counted_in (edges : list float) (v : float) (i : nat) : Prop :=
  in_bin edges i v \/ (on_last_edge edges v /\ i = (length edges - 2)%nat).

Section HistogramFacts.

Lemma strictly_increasing_lookup (edges : list float) (a b : nat) (x y : float) :
  strictly_increasing edges = true ->
  edges !! a = Some x -> edges !! b = Some y -> (a < b)%nat ->
  F64.ltb x y = true.
Proof.
  intros Hinc Ha Hb Hab.
  pose proof (take_drop_middle _ _ _ Hb) as Hd. rewrite <- Hd in Hinc.
  eapply strictly_increasing_app_l; [exact Hinc|].
  apply list_elem_of_lookup. exists a. by rewrite lookup_take_lt.
Qed.

Lemma in_bin_not_on_last (edges : list float) (i : nat) (v r : float) :
  strictly_increasing edges = true -> in_bin edges i v ->
  last_edge_is edges r -> F64.eqb v r = false.
Proof.
  intros Hinc (lo & hi & Hlo & Hhi & Hle & Hlt) Hr.
  unfold last_edge_is in Hr. rewrite last_lookup in Hr.
  destruct (F64.eqb v r) eqn:E; [|done].
  pose proof (eqb_not_ltb _ _ E) as Hn.
  pose proof (lookup_lt_Some _ _ _ Hhi) as Hlen.
  destruct (decide (S i = pred (length edges))) as [Heq|Hne].
  - rewrite <- Heq, Hhi in Hr. injection Hr as ->. congruence.
  - assert (F64.ltb hi r = true) as Hhr.
    { eapply strictly_increasing_lookup; [exact Hinc|exact Hhi|exact Hr|lia]. }
    pose proof (ltb_trans _ _ _ Hlt Hhr). congruence.
Qed.

(** The bin number of a counted coordinate; cell 0 is the underflow cell. *)
Lemma bin_number_counted_in (edges : list float) (r v : float) (i : nat) :
  valid_edges edges -> last_edge_is edges r -> counted_in edges v i ->
  bin_number edges r v = S i.
Proof.
  intros [Hlen Hinc] Hr [Hin|[(e & He & Hv) ->]]; unfold bin_number.
  - rewrite (in_bin_not_on_last _ _ _ _ Hinc Hin Hr).
    by apply searchsorted_right_in_bin.
  - unfold last_edge_is in *. rewrite Hr in He. injection He as <-.
    rewrite Hv.
    rewrite (searchsorted_right_above edges r v Hinc Hr (eqb_leb_sym _ _ Hv)).
    lia.
Qed.



Lemma bincount3_snoc (xy : list (nat * nat * nat)) (ws : list float)
    (idx : nat * nat * nat) (w : float) (i j k : nat) :
  length xy = length ws ->
  bincount3 (xy ++ [idx]) (ws ++ [w]) i j k
  = if decide (idx = (i, j, k))
    then F64.add (bincount3 xy ws i j k) w
    else bincount3 xy ws i j k.
Proof.
  intros Hlen. unfold bincount3.
  rewrite zip_with_app by done. by rewrite fold_left_app.
Qed.


End HistogramFacts.



(** The same on values: the event at (2, 1, 1) with weight 3 fills the last
    El_B bin of the histogram with 3, and its looked-up weight is 0. *)
Example last_edge_example :
  (h <- histogram hybrid012 [mk_event 2 1 1 3] ;; getitem3 (fst h) 1 1 1)
  = Ok (F64.of_Z 3) /\
  calculate_weight hybrid012 [mk_row 2 1 1] ones222 = Ok [F64.zero].
Proof. split; vm_compute; reflexivity. Qed.

(** ** The weight table *)

Section RatioFacts.

Lemma one_eq : F64.one = S754_finite false 4503599627370496 (-52).
Proof. vm_compute. reflexivity. Qed.

(** What the two replacements guarantee, whatever the ratio. *)
Lemma replaced_not_nan_not_negative (w : float) :
  F64.isnan (replaced w) = false /\
  F64.ltb (replaced w) F64.zero = false /\
  F64.leb F64.zero (replaced w) = true.
Proof.
  unfold replaced. rewrite one_eq.
  destruct w as [[]|[]| |[] m e]; repeat split; reflexivity.
Qed.

Lemma replaced_negative (w : float) :
  F64.ltb w F64.zero = true -> replaced w = F64.zero.
Proof.
  intros H. unfold replaced.
  destruct (ltb_not_nan _ _ H) as [-> _]. by rewrite H.
Qed.

(** 0 / 0: the ratio is NaN and becomes 1. *)
Lemma replaced_ratio_zero_zero (hi he : float) :
  F64.is_zero hi = true -> F64.is_zero he = true \/ F64.isnan he = true ->
  replaced (raw_ratio hi he) = F64.one.
Proof.
  destruct hi as [[]| | |]; try done; intros _ [H|H];
    destruct he as [[]| | |]; try done.
Qed.

(** A zero inclusive bin under a non-zero exclusive bin: the ratio is
    infinite, and becomes 0 or stays +inf according to its sign. *)
Lemma replaced_ratio_zero_nonzero (hi he : float) :
  F64.is_zero hi = true -> F64.is_zero he = false -> F64.isnan he = false ->
  replaced (raw_ratio hi he) = F64.zero \/ replaced (raw_ratio hi he) = F64.pinf.
Proof.
  destruct hi as [[]| | |]; try done; intros _ Hz Hn;
    destruct he as [[]|[]| |[] m e]; try done; cbn; auto.
Qed.

Lemma replaced_ratio_zero_positive (he : float) :
  F64.ltb F64.zero he = true -> replaced (raw_ratio F64.zero he) = F64.zero.
Proof. destruct he as [[]|[]| |[] m e]; done. Qed.

Lemma replaced_ratio_zero_negative (he : float) :
  F64.ltb he F64.zero = true -> replaced (raw_ratio F64.zero he) = F64.pinf.
Proof. destruct he as [[]|[]| |[] m e]; done. Qed.

(** Equal finite non-zero contents: the difference is exactly 0. *)
Lemma replaced_ratio_equal (hi he : float) :
  F64.eqb hi he = true -> F64.is_zero hi = false -> F64.isfinite hi = true ->
  F64.is_zero (replaced (raw_ratio hi he)) = true.
Proof.
  intros Heq Hz Hf. rewrite <- (eqb_finite_nonzero _ _ Heq Hz Hf).
  destruct hi as [|?| |s m e]; try done.
  unfold raw_ratio, F64.sub, SFsub. rewrite Z.sub_diag.
  by destruct s.
Qed.

Lemma eqb_zero_l (hi he : float) :
  F64.eqb hi he = true -> F64.is_zero hi = true -> F64.is_zero he = true.
Proof.
  destruct hi as [[]| | |]; try done; destruct he as [[]|[]| |[] m e]; done.
Qed.

End RatioFacts.

(** The two histograms and the table built from them, cell by cell. *)
Lemma generate_hybrid_weights_spec (self : Hybrid) (eEl eq2 emX : list float)
    (inclusive exclusive : list event) :
  has_binning self eEl eq2 emX ->
  valid_edges eEl -> valid_edges eq2 -> valid_edges emX ->
  exists H_incl H_exc W,
    histogram self inclusive = Ok (H_incl, (eEl, eq2, emX)) /\
    histogram self exclusive = Ok (H_exc, (eEl, eq2, emX)) /\
    generate_hybrid_weights self inclusive exclusive = Ok W /\
    shape W = table_shape eEl eq2 emX /\
    forall i j k,
      elem W i j k = replaced (raw_ratio (elem H_incl i j k) (elem H_exc i j k)).
Proof.
  intros Hb VEl Vq2 VmX.
  destruct (valid_edges_last _ VEl) as [rEl REl].
  destruct (valid_edges_last _ Vq2) as [rq2 Rq2].
  destruct (valid_edges_last _ VmX) as [rmX RmX].
  destruct (generate_hybrid_weights_cells self eEl eq2 emX rEl rq2 rmX
              inclusive exclusive) as (W & HW & Hs & Hc); try done.
  exists (histogram_of eEl eq2 emX rEl rq2 rmX inclusive),
         (histogram_of eEl eq2 emX rEl rq2 rmX exclusive), W.
  split; [by apply histogram_valid|]. split; [by apply histogram_valid|].
  done.
Qed.

Lemma getitem3_elem {A} (a : ndarray3 A) (i j k : nat) (v : A) :
  getitem3 a i j k = Ok v -> elem a i j k = v.
Proof. unfold getitem3. destruct (in_shape _ _ _ _); congruence. Qed.

Lemma getitem3_in_shape {A} (a : ndarray3 A) (i j k : nat) :
  in_shape (shape a) i j k = true -> getitem3 a i j k = Ok (elem a i j k).
Proof. unfold getitem3. by intros ->. Qed.

(** C1, as stated, fails: an inclusive event of weight -1 and an exclusive
    event of weight 1 in the same bin give the entry (-1 - 1) / -1 = 2,
    which is above 1. *)
Lemma weight_above_one :
  (W <- generate_hybrid_weights hybrid012 [mk_event 0 0 0 (-1)] [mk_event 0 0 0 1] ;;
   getitem3 W 0 0 0) = Ok (F64.of_Z 2) /\
  F64.leb (F64.of_Z 2) F64.one = false.
Proof. split; vm_compute; reflexivity. Qed.

(** An exclusive event of weight -1 over an empty inclusive bin gives the
    entry +inf. *)
Example weight_infinite :
  (W <- generate_hybrid_weights hybrid012 [] [mk_event 0 0 0 (-1)] ;;
   getitem3 W 0 0 0) = Ok F64.pinf.
Proof. vm_compute. reflexivity. Qed.

(** C1, amended: for every pair of event tables the weight table is built,
    has the shape of the binning, and no entry is NaN or below 0 (every
    entry [w] satisfies [0 <= w]); no upper bound is part of the
    statement. *)
Theorem weights_not_nan_not_negative (self : Hybrid) (eEl eq2 emX : list float)
    (inclusive exclusive : list event) :
  has_binning self eEl eq2 emX ->
  valid_edges eEl -> valid_edges eq2 -> valid_edges emX ->
  exists W,
    generate_hybrid_weights self inclusive exclusive = Ok W /\
    shape W = table_shape eEl eq2 emX /\
    forall i j k w,
      getitem3 W i j k = Ok w ->
      F64.isnan w = false /\ F64.ltb w F64.zero = false /\
      F64.leb F64.zero w = true.
Proof.
  intros Hb VEl Vq2 VmX.
  destruct (generate_hybrid_weights_spec self eEl eq2 emX inclusive exclusive)
    as (Hi & He & W & _ & _ & HW & Hs & Hc); try done.
  exists W. split; [done|]. split; [done|].
  intros i j k w Hw. apply getitem3_elem in Hw. subst w. rewrite Hc.
  apply replaced_not_nan_not_negative.
Qed.

Lemma weights_not_nan_not_negative_witness :
  has_binning hybrid012 edges012 edges012 edges012 /\
  valid_edges edges012 /\
  exists W,
    generate_hybrid_weights hybrid012 [mk_event 0 0 0 (-1)] [mk_event 0 0 0 1] = Ok W /\
    shape W = table_shape edges012 edges012 edges012 /\
    forall i j k w,
      getitem3 W i j k = Ok w ->
      F64.isnan w = false /\ F64.ltb w F64.zero = false /\
      F64.leb F64.zero w = true.
Proof.
  split; [exact hybrid012_binning|]. split; [exact edges012_valid|].
  apply (weights_not_nan_not_negative hybrid012 edges012 edges012 edges012
           [mk_event 0 0 0 (-1)] [mk_event 0 0 0 1]).
  - exact hybrid012_binning.
  - exact edges012_valid.
  - exact edges012_valid.
  - exact edges012_valid.
Defined.

(** C2, as stated, fails: with no inclusive event and one exclusive event
    of weight 1 in a bin, the inclusive content of the bin is 0 and its
    weight is 0, not 1. *)
Lemma zero_inclusive_weight_not_one :
  (h <- histogram hybrid012 [] ;; getitem3 (fst h) 0 0 0) = Ok F64.zero /\
  (h <- histogram hybrid012 [mk_event 0 0 0 1] ;; getitem3 (fst h) 0 0 0) = Ok F64.one /\
  (W <- generate_hybrid_weights hybrid012 [] [mk_event 0 0 0 1] ;;
   getitem3 W 0 0 0) = Ok F64.zero /\
  F64.eqb F64.zero F64.one = false.
Proof. repeat split; vm_compute; reflexivity. Qed.

(** C2, amended: in a bin whose inclusive content is zero, the weight is
    exactly 1 when the exclusive content is zero too (or NaN): the ratio is
    0/0.  When the exclusive content is not zero the ratio is infinite and
    the weight is 0 or +inf: 0 for a positive exclusive content over an
    inclusive +0.0, +inf for a negative one. *)
Theorem zero_inclusive_bin (self : Hybrid) (eEl eq2 emX : list float)
    (inclusive exclusive : list event) :
  has_binning self eEl eq2 emX ->
  valid_edges eEl -> valid_edges eq2 -> valid_edges emX ->
  exists H_incl H_exc W,
    histogram self inclusive = Ok (H_incl, (eEl, eq2, emX)) /\
    histogram self exclusive = Ok (H_exc, (eEl, eq2, emX)) /\
    generate_hybrid_weights self inclusive exclusive = Ok W /\
    forall i j k hi he,
      getitem3 H_incl i j k = Ok hi -> getitem3 H_exc i j k = Ok he ->
      F64.is_zero hi = true ->
      (F64.is_zero he = true \/ F64.isnan he = true ->
       getitem3 W i j k = Ok F64.one) /\
      (F64.is_zero he = false -> F64.isnan he = false ->
       getitem3 W i j k = Ok F64.zero \/ getitem3 W i j k = Ok F64.pinf) /\
      (hi = F64.zero -> F64.ltb F64.zero he = true ->
       getitem3 W i j k = Ok F64.zero) /\
      (hi = F64.zero -> F64.ltb he F64.zero = true ->
       getitem3 W i j k = Ok F64.pinf).
Proof.
  intros Hb VEl Vq2 VmX.
  destruct (generate_hybrid_weights_spec self eEl eq2 emX inclusive exclusive)
    as (Hi & He & W & HHi & HHe & HW & Hs & Hc); try done.
  exists Hi, He, W. repeat (split; [done|]).
  intros i j k hi he Hhi Hhe Hz.
  assert (getitem3 W i j k = Ok (replaced (raw_ratio hi he))) as ->.
  { unfold getitem3 in *. rewrite Hs.
    assert (shape Hi = table_shape eEl eq2 emX) as HsHi.
    { destruct (valid_edges_last _ VEl) as [rEl REl].
      destruct (valid_edges_last _ Vq2) as [rq2 Rq2].
      destruct (valid_edges_last _ VmX) as [rmX RmX].
      rewrite (histogram_valid self eEl eq2 emX rEl rq2 rmX inclusive) in HHi by done.
      by injection HHi as <-. }
    rewrite HsHi in Hhi.
    destruct (in_shape _ i j k); [|done].
    destruct (in_shape (shape He) i j k); [|done].
    injection Hhi as <-. injection Hhe as <-. by rewrite Hc. }
  repeat split.
  - intros H. f_equal. by apply replaced_ratio_zero_zero.
  - intros Hnz Hnn.
    destruct (replaced_ratio_zero_nonzero hi he Hz Hnz Hnn) as [-> | ->]; auto.
  - intros -> H. f_equal. by apply replaced_ratio_zero_positive.
  - intros -> H. f_equal. by apply replaced_ratio_zero_negative.
Qed.

Lemma zero_inclusive_bin_witness :
  has_binning hybrid012 edges012 edges012 edges012 /\
  valid_edges edges012 /\
  exists H_incl H_exc W,
    histogram hybrid012 [] = Ok (H_incl, (edges012, edges012, edges012)) /\
    histogram hybrid012 [mk_event 0 0 0 1] = Ok (H_exc, (edges012, edges012, edges012)) /\
    generate_hybrid_weights hybrid012 [] [mk_event 0 0 0 1] = Ok W /\
    forall i j k hi he,
      getitem3 H_incl i j k = Ok hi -> getitem3 H_exc i j k = Ok he ->
      F64.is_zero hi = true ->
      (F64.is_zero he = true \/ F64.isnan he = true ->
       getitem3 W i j k = Ok F64.one) /\
      (F64.is_zero he = false -> F64.isnan he = false ->
       getitem3 W i j k = Ok F64.zero \/ getitem3 W i j k = Ok F64.pinf) /\
      (hi = F64.zero -> F64.ltb F64.zero he = true ->
       getitem3 W i j k = Ok F64.zero) /\
      (hi = F64.zero -> F64.ltb he F64.zero = true ->
       getitem3 W i j k = Ok F64.pinf).
Proof.
  split; [exact hybrid012_binning|]. split; [exact edges012_valid|].
  apply (zero_inclusive_bin hybrid012 edges012 edges012 edges012
           [] [mk_event 0 0 0 1]).
  - exact hybrid012_binning.
  - exact edges012_valid.
  - exact edges012_valid.
  - exact edges012_valid.
Defined.

(** C5: in every bin whose ratio (H_incl - H_exc) / H_incl is below 0, the
    weight is exactly 0. *)
Theorem negative_ratio_is_zero (self : Hybrid) (eEl eq2 emX : list float)
    (inclusive exclusive : list event) :
  has_binning self eEl eq2 emX ->
  valid_edges eEl -> valid_edges eq2 -> valid_edges emX ->
  exists H_incl H_exc W,
    histogram self inclusive = Ok (H_incl, (eEl, eq2, emX)) /\
    histogram self exclusive = Ok (H_exc, (eEl, eq2, emX)) /\
    generate_hybrid_weights self inclusive exclusive = Ok W /\
    shape W = table_shape eEl eq2 emX /\
    forall i j k,
      in_shape (table_shape eEl eq2 emX) i j k = true ->
      F64.ltb (F64.div (F64.sub (elem H_incl i j k) (elem H_exc i j k))
                       (elem H_incl i j k))
              F64.zero = true ->
      getitem3 W i j k = Ok F64.zero.
Proof.
  intros Hb VEl Vq2 VmX.
  destruct (generate_hybrid_weights_spec self eEl eq2 emX inclusive exclusive)
    as (Hi & He & W & HHi & HHe & HW & Hs & Hc); try done.
  exists Hi, He, W. repeat (split; [done|]).
  intros i j k Hin Hneg.
  rewrite getitem3_in_shape by (by rewrite Hs).
  f_equal. rewrite Hc. by apply replaced_negative.
Qed.

Lemma negative_ratio_is_zero_witness :
  has_binning hybrid012 edges012 edges012 edges012 /\
  valid_edges edges012 /\
  exists H_incl H_exc W,
    histogram hybrid012 [mk_event 0 0 0 1] = Ok (H_incl, (edges012, edges012, edges012)) /\
    histogram hybrid012 [mk_event 0 0 0 3] = Ok (H_exc, (edges012, edges012, edges012)) /\
    generate_hybrid_weights hybrid012 [mk_event 0 0 0 1] [mk_event 0 0 0 3] = Ok W /\
    shape W = table_shape edges012 edges012 edges012 /\
    forall i j k,
      in_shape (table_shape edges012 edges012 edges012) i j k = true ->
      F64.ltb (F64.div (F64.sub (elem H_incl i j k) (elem H_exc i j k))
                       (elem H_incl i j k))
              F64.zero = true ->
      getitem3 W i j k = Ok F64.zero.
Proof.
  split; [exact hybrid012_binning|]. split; [exact edges012_valid|].
  apply (negative_ratio_is_zero hybrid012 edges012 edges012 edges012
           [mk_event 0 0 0 1] [mk_event 0 0 0 3]).
  - exact hybrid012_binning.
  - exact edges012_valid.
  - exact edges012_valid.
  - exact edges012_valid.
Defined.

(** One inclusive and three exclusive units in a bin: the ratio is -2 and
    the weight 0. *)
Example negative_ratio_example :
  F64.div (F64.sub (F64.of_Z 1) (F64.of_Z 3)) (F64.of_Z 1) = F64.of_Z (-2) /\
  (W <- generate_hybrid_weights hybrid012 [mk_event 0 0 0 1] [mk_event 0 0 0 3] ;;
   getitem3 W 0 0 0) = Ok F64.zero.
Proof. split; vm_compute; reflexivity. Qed.

(** C6, as stated, fails: with two empty tables the inclusive and the
    exclusive content of a bin are equal (both 0) and its weight is 1. *)
Lemma equal_empty_bins_weight_one :
  (h <- histogram hybrid012 [] ;; getitem3 (fst h) 0 0 0) = Ok F64.zero /\
  F64.eqb F64.zero F64.zero = true /\
  (W <- generate_hybrid_weights hybrid012 [] [] ;; getitem3 W 0 0 0) = Ok F64.one /\
  F64.eqb F64.one F64.zero = false.
Proof. repeat split; vm_compute; reflexivity. Qed.

(** C6, amended: in a bin whose inclusive and exclusive contents are equal,
    the weight is 0 when that content is finite and not zero, and 1 when it
    is zero. *)
Theorem equal_bins (self : Hybrid) (eEl eq2 emX : list float)
    (inclusive exclusive : list event) :
  has_binning self eEl eq2 emX ->
  valid_edges eEl -> valid_edges eq2 -> valid_edges emX ->
  exists H_incl H_exc W,
    histogram self inclusive = Ok (H_incl, (eEl, eq2, emX)) /\
    histogram self exclusive = Ok (H_exc, (eEl, eq2, emX)) /\
    generate_hybrid_weights self inclusive exclusive = Ok W /\
    shape W = table_shape eEl eq2 emX /\
    forall i j k,
      in_shape (table_shape eEl eq2 emX) i j k = true ->
      F64.eqb (elem H_incl i j k) (elem H_exc i j k) = true ->
      (F64.is_zero (elem H_incl i j k) = false ->
       F64.isfinite (elem H_incl i j k) = true ->
       exists w, getitem3 W i j k = Ok w /\ F64.is_zero w = true) /\
      (F64.is_zero (elem H_incl i j k) = true ->
       getitem3 W i j k = Ok F64.one).
Proof.
  intros Hb VEl Vq2 VmX.
  destruct (generate_hybrid_weights_spec self eEl eq2 emX inclusive exclusive)
    as (Hi & He & W & HHi & HHe & HW & Hs & Hc); try done.
  exists Hi, He, W. repeat (split; [done|]).
  intros i j k Hin Heq.
  rewrite getitem3_in_shape by (by rewrite Hs). rewrite Hc. split.
  - intros Hz Hf. eexists. split; [done|]. by apply replaced_ratio_equal.
  - intros Hz. f_equal. apply replaced_ratio_zero_zero; [done|].
    left. by eapply eqb_zero_l.
Qed.

Lemma equal_bins_witness :
  has_binning hybrid012 edges012 edges012 edges012 /\
  valid_edges edges012 /\
  exists H_incl H_exc W,
    histogram hybrid012 [mk_event 0 0 0 3] = Ok (H_incl, (edges012, edges012, edges012)) /\
    histogram hybrid012 [mk_event 0 0 0 3] = Ok (H_exc, (edges012, edges012, edges012)) /\
    generate_hybrid_weights hybrid012 [mk_event 0 0 0 3] [mk_event 0 0 0 3] = Ok W /\
    shape W = table_shape edges012 edges012 edges012 /\
    forall i j k,
      in_shape (table_shape edges012 edges012 edges012) i j k = true ->
      F64.eqb (elem H_incl i j k) (elem H_exc i j k) = true ->
      (F64.is_zero (elem H_incl i j k) = false ->
       F64.isfinite (elem H_incl i j k) = true ->
       exists w, getitem3 W i j k = Ok w /\ F64.is_zero w = true) /\
      (F64.is_zero (elem H_incl i j k) = true ->
       getitem3 W i j k = Ok F64.one).
Proof.
  split; [exact hybrid012_binning|]. split; [exact edges012_valid|].
  apply (equal_bins hybrid012 edges012 edges012 edges012
           [mk_event 0 0 0 3] [mk_event 0 0 0 3]).
  - exact hybrid012_binning.
  - exact edges012_valid.
  - exact edges012_valid.
  - exact edges012_valid.
Defined.

(** Three inclusive and three exclusive units in a bin: weight 0; the
    other bins are empty on both sides: weight 1. *)
Example equal_bins_example :
  (W <- generate_hybrid_weights hybrid012 [mk_event 0 0 0 3] [mk_event 0 0 0 3] ;;
   getitem3 W 0 0 0) = Ok F64.zero /\
  (W <- generate_hybrid_weights hybrid012 [mk_event 0 0 0 3] [mk_event 0 0 0 3] ;;
   getitem3 W 1 1 1) = Ok F64.one.
Proof. split; vm_compute; reflexivity. Qed.

(** * Further properties of the three methods *)

(** ** Hybrid.__init__ on arbitrary configurations *)

(** A JSON object without one of the three keys raises KeyError, whatever
    else it holds. *)
Theorem init_key_absent (hybrid_binning : json) (m : gmap string json) :
  m !! "BINS_MX" = None \/ m !! "BINS_ELB" = None \/ m !! "BINS_Q2" = None ->
  init hybrid_binning (Some (JObj m)) = Raise KeyError.
Proof.
  intros H. unfold init, getitem_key.
  destruct (m !! "BINS_MX") as [bmX|] eqn:EmX; [|done].
  destruct (m !! "BINS_ELB") as [bEl|] eqn:EEl; [|done].
  destruct (m !! "BINS_Q2") as [bq2|] eqn:Eq2; [|done].
  destruct H as [H|[H|H]]; done.
Qed.

Lemma init_key_absent_witness :
  (<["BINS_MX" := num_array edges012]> (∅ : gmap string json)) !! "BINS_ELB" = None /\
  init JNull (Some (JObj (<["BINS_MX" := num_array edges012]> ∅))) = Raise KeyError.
Proof.
  split; [reflexivity|].
  apply (init_key_absent JNull (<["BINS_MX" := num_array edges012]> ∅)).
  right. left. reflexivity.
Defined.

(** A configuration whose top-level value is not an object raises
    TypeError. *)
Lemma init_not_an_object (hybrid_binning cfg : json) :
  (forall m, cfg <> JObj m) ->
  init hybrid_binning (Some cfg) = Raise TypeError.
Proof.
  intros H. destruct cfg; try done. by destruct (H m).
Qed.



(** A file with the three keys in which one edge sequence has fewer than
    two elements raises IndexError: the ranges need elements 0 and 1. *)
Theorem init_short_sequence (hybrid_binning : json) (eEl eq2 emX : list float) :
  (length eEl < 2 \/ length eq2 < 2 \/ length emX < 2)%nat ->
  init hybrid_binning (Some (config_of eEl eq2 emX)) = Raise IndexError.
Proof.
  intros H. unfold init, config_of, getitem_key.
  rewrite lookup_insert_eq. cbn [rbind].
  rewrite lookup_insert_ne by done. rewrite lookup_insert_eq. cbn [rbind].
  rewrite !lookup_insert_ne by done. rewrite lookup_insert_eq. cbn [rbind].
  destruct emX as [|m0 [|m1 lm]]; [done..|].
  destruct eEl as [|a0 [|a1 la]]; [done..|].
  destruct eq2 as [|b0 [|b1 lb]]; [done..|].
  cbn in H. lia.
Qed.

Lemma init_short_sequence_witness :
  (length edges012 < 2 \/ length [F64.of_Z 0] < 2 \/ length edges012 < 2)%nat /\
  init JNull (Some (config_of edges012 [F64.of_Z 0] edges012)) = Raise IndexError.
Proof.
  split; [right; left; cbn; lia|].
  apply (init_short_sequence JNull edges012 [F64.of_Z 0] edges012).
  right. left. cbn. lia.
Defined.

(** ** Hybrid.calculate_weight beyond the boundaries *)

Section DigitizeFacts.

Lemma valid_edges_not_nan (edges : list float) (e : float) :
  valid_edges edges -> e ∈ edges -> F64.isnan e = false.
Proof.
  intros [Hlen Hinc] He.
  destruct edges as [|a [|b l]]; cbn in Hlen; try lia.
  pose proof (increasing_from_all _ _ Hinc) as Hall.
  apply elem_of_cons in He as [->|He].
  - destruct (ltb_not_nan a b) as [Ha _]; [|done]. apply Hall. by left.
  - destruct (ltb_not_nan a e) as [_ Hn]; [|done]. by apply Hall.
Qed.

(** A NaN coordinate sorts after every edge: index [len(edges)]. *)
Lemma searchsorted_right_nan (edges : list float) (v : float) :
  valid_edges edges -> F64.isnan v = true ->
  searchsorted_right edges v = length edges.
Proof.
  intros Hv Hn. rewrite <- (app_nil_r edges) at 1.
  rewrite searchsorted_right_app; [cbn; lia|].
  intros e He. unfold sort_lt.
  rewrite (valid_edges_not_nan _ _ Hv He).
  destruct v; try done.
Qed.

Lemma in_bin_cons (e0 : float) (edges : list float) (j : nat) (v : float) :
  in_bin edges j v -> in_bin (e0 :: edges) (S j) v.
Proof. intros (lo & hi & Hlo & Hhi & H). by exists lo, hi. Qed.

Lemma classify_from (e0 : float) (rest : list float) (v : float) :
  increasing_from e0 rest = true -> F64.isnan v = false ->
  F64.leb e0 v = true ->
  at_or_above_last (e0 :: rest) v \/ exists j, in_bin (e0 :: rest) j v.
Proof.
  revert e0. induction rest as [|e1 rest IH]; intros e0 Hinc Hn Hle.
  - left. exists e0. by split.
  - cbn in Hinc. apply andb_true_iff in Hinc as [H01 Hinc].
    destruct (F64.ltb v e1) eqn:Hlt.
    + right. exists 0%nat, e0, e1. by repeat split.
    + destruct (ltb_not_nan _ _ H01) as [_ Hn1].
      pose proof (not_ltb_leb _ _ Hn Hn1 Hlt) as Hle1.
      destruct (IH e1 Hinc Hn Hle1) as [(r & Hr & Hrv)|[j Hj]].
      * left. exists r. split; [|done]. unfold last_edge_is in *.
        by rewrite last_cons, Hr.
      * right. exists (S j). by apply in_bin_cons.
Qed.

(** Every coordinate is NaN, below the first edge, at or above the last
    edge, or inside a bin. *)
Lemma classify (edges : list float) (v : float) :
  valid_edges edges ->
  F64.isnan v = true \/ outside edges v \/ exists j, in_bin edges j v.
Proof.
  intros Hv. pose proof Hv as [Hlen Hinc].
  destruct (F64.isnan v) eqn:Hn; [by left|right].
  destruct edges as [|e0 rest]; [cbn in Hlen; lia|].
  assert (F64.isnan e0 = false) as Hn0.
  { apply (valid_edges_not_nan _ _ Hv). by left. }
  destruct (F64.ltb v e0) eqn:Hlt.
  - left. left. by exists e0.
  - pose proof (not_ltb_leb _ _ Hn Hn0 Hlt) as Hle.
    destruct (classify_from e0 rest v Hinc Hn Hle) as [H|H].
    + left. by right.
    + by right.
Qed.

End DigitizeFacts.

Section LookupGeneral.

Lemma fancy_index_unzip {A} (P : ndarray3 float) (f g h : A -> nat) (x : list A) :
  rmapM (fun '(i, j, k) => getitem3 P i j k)
        (zip (zip (map f x) (map g x)) (map h x))
  = rmapM (fun r => getitem3 P (f r) (g r) (h r)) x.
Proof.
  induction x as [|r x IH]; [done|]. cbn. by rewrite IH.
Qed.

(** With increasing edges the lookup is the row-wise read of the padded
    table, whatever the shape of the table. *)
Lemma calculate_weight_reads (self : Hybrid) (eEl eq2 emX : list float)
    (x : list (float * float * float)) (T : ndarray3 float) :
  has_binning self eEl eq2 emX ->
  strictly_increasing eEl = true -> strictly_increasing eq2 = true ->
  strictly_increasing emX = true ->
  calculate_weight self x T
  = rmapM (fun r => getitem3 (pad_1_1 T F64.zero)
                      (searchsorted_right eEl (fst (fst r)))
                      (searchsorted_right eq2 (snd (fst r)))
                      (searchsorted_right emX (snd r))) x.
Proof.
  intros (HEl & Hq2 & HmX) IEl Iq2 ImX.
  unfold calculate_weight. rewrite HEl, Hq2, HmX.
  rewrite !digitize_increasing by done. cbn [rbind].
  rewrite !map_map.
  apply (fancy_index_unzip (pad_1_1 T F64.zero)
           (fun r => searchsorted_right eEl (fst (fst r)))
           (fun r => searchsorted_right eq2 (snd (fst r)))
           (fun r => searchsorted_right emX (snd r))).
Qed.

Lemma rmapM_raise {A B} (f : A -> result B) (l : list A) (e : exn) :
  (forall a, a ∈ l -> f a = Raise e \/ exists b, f a = Ok b) ->
  (exists a, a ∈ l /\ f a = Raise e) ->
  rmapM f l = Raise e.
Proof.
  induction l as [|a l IH]; intros Hall (a' & Hin & Ha').
  - by apply elem_of_nil in Hin.
  - cbn. destruct (Hall a) as [->|[b Hb]]; [by left|done|].
    rewrite Hb. cbn. rewrite IH; [done| |].
    + intros a0 H0. apply Hall. by right.
    + apply elem_of_cons in Hin as [->|Hin]; [congruence|]. by exists a'.
Qed.

Lemma getitem3_raises {A} (a : ndarray3 A) (i j k : nat) :
  getitem3 a i j k = Raise IndexError \/ exists v, getitem3 a i j k = Ok v.
Proof. unfold getitem3. destruct (in_shape _ _ _ _); eauto. Qed.

End LookupGeneral.

(** An empty coordinate array gives an empty array of weights, whatever
    the table. *)
Theorem calculate_weight_empty (self : Hybrid) (eEl eq2 emX : list float)
    (T : ndarray3 float) :
  has_binning self eEl eq2 emX ->
  strictly_increasing eEl = true -> strictly_increasing eq2 = true ->
  strictly_increasing emX = true ->
  calculate_weight self [] T = Ok [].
Proof.
  intros Hb IEl Iq2 ImX.
  by rewrite (calculate_weight_reads self eEl eq2 emX [] T).
Qed.

Lemma calculate_weight_empty_witness :
  has_binning hybrid012 edges012 edges012 edges012 /\
  strictly_increasing edges012 = true /\
  calculate_weight hybrid012 [] (ones (7, 0, 1)%nat) = Ok [].
Proof.
  split; [exact hybrid012_binning|]. split; [reflexivity|].
  apply (calculate_weight_empty hybrid012 edges012 edges012 edges012
           (ones (7, 0, 1)%nat));
    [exact hybrid012_binning | reflexivity..].
Defined.

(** The lookup proper: every row is of one of two kinds.  Either each
    coordinate lies in a bin of its dimension, and the weight is the entry
    of the table at these three bins; or some coordinate is NaN, below the
    first edge or at or above the last edge, and the weight is 0. *)
Theorem calculate_weight_classified (self : Hybrid) (eEl eq2 emX : list float)
    (T : ndarray3 float) (x : list (float * float * float)) :
  has_binning self eEl eq2 emX ->
  valid_edges eEl -> valid_edges eq2 -> valid_edges emX ->
  shape T = table_shape eEl eq2 emX ->
  exists ws,
    calculate_weight self x T = Ok ws /\
    forall n a b c,
      x !! n = Some (a, b, c) ->
      (exists i j k,
         in_bin eEl i a /\ in_bin eq2 j b /\ in_bin emX k c /\
         getitem3 T i j k = Ok (elem T i j k) /\
         ws !! n = Some (elem T i j k)) \/
      ((F64.isnan a = true \/ F64.isnan b = true \/ F64.isnan c = true \/
        outside eEl a \/ outside eq2 b \/ outside emX c) /\
       ws !! n = Some F64.zero).
Proof.
  intros Hb VEl Vq2 VmX HT.
  exists (map (lookup_row eEl eq2 emX T) x). split.
  - by apply calculate_weight_rows.
  - intros n a b c Hn.
    change (map (lookup_row eEl eq2 emX T) x) with (lookup_row eEl eq2 emX T <$> x).
    rewrite list_lookup_fmap, Hn. cbn [fmap option_fmap option_map].
    assert (forall edges v,
              valid_edges edges -> F64.isnan v = true ->
              searchsorted_right edges v = 0%nat \/
              searchsorted_right edges v = (length edges - 1 + 1)%nat) as Hnan.
    { intros edges v He Hv. right.
      rewrite (searchsorted_right_nan _ _ He Hv). destruct He. lia. }
    destruct (classify eEl a VEl) as [Ha|[Ha|[i Hi]]].
    { right. split; [tauto|]. f_equal. unfold lookup_row. cbn [fst snd].
      apply (elem_pad_border T F64.zero _ _ _ _ _ _ HT).
      destruct (Hnan eEl a VEl Ha); auto. }
    { right. split; [tauto|]. f_equal.
      apply (lookup_row_outside eEl eq2 emX VEl Vq2 VmX T HT). tauto. }
    destruct (classify eq2 b Vq2) as [Hb'|[Hb'|[j Hj]]].
    { right. split; [tauto|]. f_equal. unfold lookup_row. cbn [fst snd].
      apply (elem_pad_border T F64.zero _ _ _ _ _ _ HT).
      destruct (Hnan eq2 b Vq2 Hb'); auto 10. }
    { right. split; [tauto|]. f_equal.
      apply (lookup_row_outside eEl eq2 emX VEl Vq2 VmX T HT). tauto. }
    destruct (classify emX c VmX) as [Hc|[Hc|[k Hk]]].
    { right. split; [tauto|]. f_equal. unfold lookup_row. cbn [fst snd].
      apply (elem_pad_border T F64.zero _ _ _ _ _ _ HT).
      destruct (Hnan emX c VmX Hc); auto 10. }
    { right. split; [tauto|]. f_equal.
      apply (lookup_row_outside eEl eq2 emX VEl Vq2 VmX T HT). tauto. }
    left. exists i, j, k. repeat (split; [done|]). split.
    + apply getitem3_in_shape. rewrite HT. unfold table_shape, in_shape.
      pose proof (in_bin_lt _ _ _ Hi). pose proof (in_bin_lt _ _ _ Hj).
      pose proof (in_bin_lt _ _ _ Hk).
      repeat (apply andb_true_iff; split); by apply Nat.ltb_lt.
    + f_equal. by apply (lookup_row_in_bins eEl eq2 emX VEl Vq2 VmX T HT).
Qed.

Lemma calculate_weight_classified_witness :
  has_binning hybrid012 edges012 edges012 edges012 /\
  valid_edges edges012 /\
  shape ones222 = table_shape edges012 edges012 edges012 /\
  exists ws,
    calculate_weight hybrid012 [mk_row 1 0 1; (F64.nan, F64.of_Z 0, F64.of_Z 0)] ones222
    = Ok ws /\
    forall n a b c,
      [mk_row 1 0 1; (F64.nan, F64.of_Z 0, F64.of_Z 0)] !! n = Some (a, b, c) ->
      (exists i j k,
         in_bin edges012 i a /\ in_bin edges012 j b /\ in_bin edges012 k c /\
         getitem3 ones222 i j k = Ok (elem ones222 i j k) /\
         ws !! n = Some (elem ones222 i j k)) \/
      ((F64.isnan a = true \/ F64.isnan b = true \/ F64.isnan c = true \/
        outside edges012 a \/ outside edges012 b \/ outside edges012 c) /\
       ws !! n = Some F64.zero).
Proof.
  split; [exact hybrid012_binning|]. split; [exact edges012_valid|].
  split; [reflexivity|].
  apply (calculate_weight_classified hybrid012 edges012 edges012 edges012 ones222
           [mk_row 1 0 1; (F64.nan, F64.of_Z 0, F64.of_Z 0)]).
  - exact hybrid012_binning.
  - exact edges012_valid.
  - exact edges012_valid.
  - exact edges012_valid.
  - reflexivity.
Defined.

(** A row with a NaN coordinate gets weight 0: NaN is digitized past the
    last edge, into the padding. *)
Theorem calculate_weight_nan (self : Hybrid) (eEl eq2 emX : list float)
    (T : ndarray3 float) (x : list (float * float * float)) :
  has_binning self eEl eq2 emX ->
  valid_edges eEl -> valid_edges eq2 -> valid_edges emX ->
  shape T = table_shape eEl eq2 emX ->
  exists ws,
    calculate_weight self x T = Ok ws /\
    forall n a b c,
      x !! n = Some (a, b, c) ->
      F64.isnan a = true \/ F64.isnan b = true \/ F64.isnan c = true ->
      ws !! n = Some F64.zero.
Proof.
  intros Hb VEl Vq2 VmX HT.
  exists (map (lookup_row eEl eq2 emX T) x). split.
  - by apply calculate_weight_rows.
  - intros n a b c Hn Hnan.
    change (map (lookup_row eEl eq2 emX T) x) with (lookup_row eEl eq2 emX T <$> x).
    rewrite list_lookup_fmap, Hn. cbn [fmap option_fmap option_map]. f_equal.
    unfold lookup_row. cbn [fst snd].
    apply (elem_pad_border T F64.zero _ _ _ _ _ _ HT).
    pose proof VEl as [LEl _]. pose proof Vq2 as [Lq2 _].
    pose proof VmX as [LmX _].
    destruct Hnan as [Hv|[Hv|Hv]].
    + right. left. rewrite searchsorted_right_nan by done. lia.
    + do 3 right. left. rewrite searchsorted_right_nan by done. lia.
    + do 5 right. rewrite searchsorted_right_nan by done. lia.
Qed.

Lemma calculate_weight_nan_witness :
  has_binning hybrid012 edges012 edges012 edges012 /\
  valid_edges edges012 /\
  shape ones222 = table_shape edges012 edges012 edges012 /\
  exists ws,
    calculate_weight hybrid012 [(F64.of_Z 0, F64.nan, F64.of_Z 0)] ones222 = Ok ws /\
    forall n a b c,
      [(F64.of_Z 0, F64.nan, F64.of_Z 0)] !! n = Some (a, b, c) ->
      F64.isnan a = true \/ F64.isnan b = true \/ F64.isnan c = true ->
      ws !! n = Some F64.zero.
Proof.
  split; [exact hybrid012_binning|]. split; [exact edges012_valid|].
  split; [reflexivity|].
  apply (calculate_weight_nan hybrid012 edges012 edges012 edges012 ones222
           [(F64.of_Z 0, F64.nan, F64.of_Z 0)]).
  - exact hybrid012_binning.
  - exact edges012_valid.
  - exact edges012_valid.
  - exact edges012_valid.
  - reflexivity.
Defined.

(** Looking up two coordinate arrays one after the other and joining the
    results is looking up the joined array. *)
Theorem calculate_weight_app (self : Hybrid) (eEl eq2 emX : list float)
    (T : ndarray3 float) (x y : list (float * float * float)) :
  has_binning self eEl eq2 emX ->
  valid_edges eEl -> valid_edges eq2 -> valid_edges emX ->
  shape T = table_shape eEl eq2 emX ->
  exists wx wy,
    calculate_weight self x T = Ok wx /\
    calculate_weight self y T = Ok wy /\
    calculate_weight self (x ++ y) T = Ok (wx ++ wy).
Proof.
  intros Hb VEl Vq2 VmX HT.
  exists (map (lookup_row eEl eq2 emX T) x), (map (lookup_row eEl eq2 emX T) y).
  rewrite <- map_app. repeat split; by apply calculate_weight_rows.
Qed.

Lemma calculate_weight_app_witness :
  has_binning hybrid012 edges012 edges012 edges012 /\
  valid_edges edges012 /\
  shape ones222 = table_shape edges012 edges012 edges012 /\
  exists wx wy,
    calculate_weight hybrid012 [mk_row 0 0 0] ones222 = Ok wx /\
    calculate_weight hybrid012 [mk_row 2 0 0; mk_row 1 1 1] ones222 = Ok wy /\
    calculate_weight hybrid012 ([mk_row 0 0 0] ++ [mk_row 2 0 0; mk_row 1 1 1]) ones222
    = Ok (wx ++ wy).
Proof.
  split; [exact hybrid012_binning|]. split; [exact edges012_valid|].
  split; [reflexivity|].
  apply (calculate_weight_app hybrid012 edges012 edges012 edges012 ones222
           [mk_row 0 0 0] [mk_row 2 0 0; mk_row 1 1 1]).
  - exact hybrid012_binning.
  - exact edges012_valid.
  - exact edges012_valid.
  - exact edges012_valid.
  - reflexivity.
Defined.

(** A table with too few bins for the binning: a row that lies in a bin
    more than one past the end of the table, in some dimension, makes the
    whole lookup raise IndexError (the bin just past the end still reads the
    padding). *)
Theorem calculate_weight_index_error (self : Hybrid) (eEl eq2 emX : list float)
    (T : ndarray3 float) (n0 n1 n2 : nat) (x : list (float * float * float))
    (a b c : float) :
  has_binning self eEl eq2 emX ->
  strictly_increasing eEl = true -> strictly_increasing eq2 = true ->
  strictly_increasing emX = true ->
  shape T = (n0, n1, n2) ->
  (a, b, c) ∈ x ->
  (exists i, in_bin eEl i a /\ (n0 < i)%nat) \/
  (exists j, in_bin eq2 j b /\ (n1 < j)%nat) \/
  (exists k, in_bin emX k c /\ (n2 < k)%nat) ->
  calculate_weight self x T = Raise IndexError.
Proof.
  intros Hb IEl Iq2 ImX HT Hin Hbig.
  rewrite (calculate_weight_reads self eEl eq2 emX x T) by done.
  apply rmapM_raise.
  - intros r _. apply getitem3_raises.
  - exists (a, b, c). split; [done|]. cbn [fst snd].
    unfold getitem3. rewrite (shape_pad _ _ _ _ _ HT). unfold in_shape.
    assert ((searchsorted_right eEl a <? n0 + 2)%nat
            && (searchsorted_right eq2 b <? n1 + 2)%nat
            && (searchsorted_right emX c <? n2 + 2)%nat = false) as ->; [|done].
    destruct Hbig as [(i & Hi & Hlt)|[(j & Hj & Hlt)|(k & Hk & Hlt)]].
    + rewrite (searchsorted_right_in_bin _ _ _ IEl Hi).
      assert ((S i <? n0 + 2)%nat = false) as -> by (apply Nat.ltb_ge; lia).
      done.
    + rewrite (searchsorted_right_in_bin _ _ _ Iq2 Hj).
      assert ((S j <? n1 + 2)%nat = false) as -> by (apply Nat.ltb_ge; lia).
      by rewrite andb_false_r.
    + rewrite (searchsorted_right_in_bin _ _ _ ImX Hk).
      assert ((S k <? n2 + 2)%nat = false) as -> by (apply Nat.ltb_ge; lia).
      by rewrite andb_false_r.
Qed.

Lemma calculate_weight_index_error_witness :
  has_binning hybrid012 edges012 edges012 edges012 /\
  strictly_increasing edges012 = true /\
  shape (ones (0, 2, 2)%nat) = (0, 2, 2)%nat /\
  mk_row 1 0 0 ∈ [mk_row 0 0 0; mk_row 1 0 0] /\
  (exists i, in_bin edges012 i (F64.of_Z 1) /\ (0 < i)%nat) /\
  calculate_weight hybrid012 [mk_row 0 0 0; mk_row 1 0 0] (ones (0, 2, 2)%nat)
  = Raise IndexError.
Proof.
  assert (exists i, in_bin edges012 i (F64.of_Z 1) /\ (0 < i)%nat) as Hbin.
  { exists 1%nat. split; [|lia]. eexists _, _. repeat split; reflexivity. }
  assert (mk_row 1 0 0 ∈ [mk_row 0 0 0; mk_row 1 0 0]) as Hin.
  { right. left. }
  split; [exact hybrid012_binning|]. split; [reflexivity|].
  split; [reflexivity|]. split; [exact Hin|]. split; [exact Hbin|].
  apply (calculate_weight_index_error hybrid012 edges012 edges012 edges012
           (ones (0, 2, 2)%nat) 0 2 2 [mk_row 0 0 0; mk_row 1 0 0]
           (F64.of_Z 1) (F64.of_Z 0) (F64.of_Z 0)).
  - exact hybrid012_binning.
  - reflexivity.
  - reflexivity.
  - reflexivity.
  - reflexivity.
  - exact Hin.
  - left. exact Hbin.
Defined.

(** ** Hybrid.generate_hybrid_weights: which events a bin sees *)

(** A coordinate no bin counts: NaN, below the first edge, or above the
    last edge. *)
Definition uncounted (edges : list float) (v : float) : Prop :=
  F64.isnan v = true \/ below_first edges v \/
  exists r, last_edge_is edges r /\ F64.ltb r v = true.

Section BinFacts.

Lemma ltb_leb (a b : float) : F64.ltb a b = true -> F64.leb a b = true.
Proof.
  intros H. destruct (ltb_not_nan _ _ H) as [Ha Hb].
  apply not_ltb_leb; [done..|]. by apply ltb_asym.
Qed.

Lemma ltb_not_eqb (a b : float) : F64.ltb a b = true -> F64.eqb b a = false.
Proof.
  intros H. destruct (F64.eqb b a) eqn:E; [|done].
  pose proof (eqb_ltb_ltb _ _ _ E H) as H'. by rewrite ltb_irrefl in H'.
Qed.

Lemma eqb_nan_l (v r : float) : F64.isnan v = true -> F64.eqb v r = false.
Proof. by destruct v. Qed.

(** An uncounted coordinate goes to one of the two outlier cells. *)
Lemma bin_number_uncounted (edges : list float) (r v : float) :
  valid_edges edges -> last_edge_is edges r -> uncounted edges v ->
  bin_number edges r v = 0%nat \/ bin_number edges r v = length edges.
Proof.
  intros Hv Hr [Hn|[(e & He & Hlt)|(r' & Hr' & Hlt)]]; unfold bin_number.
  - right. rewrite (eqb_nan_l _ _ Hn). by apply searchsorted_right_nan.
  - left. rewrite (searchsorted_right_below _ _ _ He Hlt).
    by destruct (F64.eqb v r).
  - right. unfold last_edge_is in *. rewrite Hr in Hr'. injection Hr' as <-.
    rewrite (ltb_not_eqb _ _ Hlt). destruct Hv as [_ Hinc].
    apply (searchsorted_right_above edges r v Hinc Hr). by apply ltb_leb.
Qed.

(** The cells 1 .. len - 1 are reached by counted coordinates only. *)
Lemma bin_number_inv (edges : list float) (r v : float) (i : nat) :
  valid_edges edges -> last_edge_is edges r -> (i < length edges - 1)%nat ->
  bin_number edges r v = S i -> counted_in edges v i.
Proof.
  intros Hv Hr Hi Hb. pose proof Hv as [Hlen Hinc].
  destruct (classify edges v Hv) as [Hn|[[Hlo|(e & He & Hle)]|[j Hj]]].
  - destruct (bin_number_uncounted edges r v Hv Hr) as [H|H]; [by left|lia..].
  - destruct (bin_number_uncounted edges r v Hv Hr) as [H|H];
      [right; by left|lia..].
  - unfold last_edge_is in *. rewrite Hr in He. injection He as <-.
    unfold bin_number in Hb.
    rewrite (searchsorted_right_above edges r v Hinc Hr Hle) in Hb.
    destruct (F64.eqb v r) eqn:E; [|lia].
    right. split; [by exists r|lia].
  - rewrite (bin_number_counted_in edges r v j Hv Hr) in Hb by (by left).
    injection Hb as ->. by left.
Qed.

Lemma bincount3_cons (idx : nat * nat * nat) (xy : list (nat * nat * nat))
    (w : float) (ws : list float) (i j k : nat) :
  idx <> (i, j, k) ->
  forall acc,
    fold_left
      (fun acc '(idx, w) => if decide (idx = (i, j, k)) then F64.add acc w else acc)
      (zip (idx :: xy) (w :: ws)) acc
    = fold_left
        (fun acc '(idx, w) => if decide (idx = (i, j, k)) then F64.add acc w else acc)
        (zip xy ws) acc.
Proof. intros Hne acc. cbn. by rewrite decide_False. Qed.

(** A sample whose cell is not [(i, j, k)] takes no part in that cell. *)
Lemma bincount3_skip (xy1 xy2 : list (nat * nat * nat)) (ws1 ws2 : list float)
    (idx : nat * nat * nat) (w : float) (i j k : nat) :
  length xy1 = length ws1 -> idx <> (i, j, k) ->
  bincount3 (xy1 ++ idx :: xy2) (ws1 ++ w :: ws2) i j k
  = bincount3 (xy1 ++ xy2) (ws1 ++ ws2) i j k.
Proof.
  intros Hlen Hne. unfold bincount3.
  rewrite !zip_with_app by done. rewrite !fold_left_app.
  by rewrite bincount3_cons.
Qed.

Lemma bincount3_no_hits (xy : list (nat * nat * nat)) (ws : list float)
    (i j k : nat) :
  (forall idx, idx ∈ xy -> idx <> (i, j, k)) ->
  bincount3 xy ws i j k = F64.zero.
Proof.
  unfold bincount3. generalize F64.zero as acc.
  revert ws. induction xy as [|idx xy IH]; intros ws acc Hno; [done|].
  destruct ws as [|w ws]; [done|].
  rewrite bincount3_cons by (apply Hno; by left).
  apply IH. intros idx' H'. apply Hno. by right.
Qed.

End BinFacts.

(** An event with an uncounted coordinate takes no part in the histogram:
    with or without it, at any place of the table, the histogram is the
    same, and so is the weight table whether the event is in the inclusive
    or in the exclusive table. *)
Theorem uncounted_event_ignored (self : Hybrid) (eEl eq2 emX : list float)
    (df1 df2 other : list event) (ev : event) :
  has_binning self eEl eq2 emX ->
  valid_edges eEl -> valid_edges eq2 -> valid_edges emX ->
  uncounted eEl (El_B ev) \/ uncounted eq2 (q2 ev) \/ uncounted emX (mX ev) ->
  exists H H' W W_incl W_exc,
    histogram self (df1 ++ df2) = Ok (H, (eEl, eq2, emX)) /\
    histogram self (df1 ++ ev :: df2) = Ok (H', (eEl, eq2, emX)) /\
    generate_hybrid_weights self (df1 ++ df2) other = Ok W /\
    generate_hybrid_weights self (df1 ++ ev :: df2) other = Ok W_incl /\
    generate_hybrid_weights self other (df1 ++ df2) = Ok W_exc /\
    (forall i j k, getitem3 H' i j k = getitem3 H i j k) /\
    (forall i j k, getitem3 W_incl i j k = getitem3 W i j k) /\
    (forall i j k,
       (w' <- generate_hybrid_weights self other (df1 ++ ev :: df2) ;;
        getitem3 w' i j k) = getitem3 W_exc i j k).
Proof.
  intros Hb VEl Vq2 VmX Hun.
  destruct (valid_edges_last _ VEl) as [rEl REl].
  destruct (valid_edges_last _ Vq2) as [rq2 Rq2].
  destruct (valid_edges_last _ VmX) as [rmX RmX].
  assert (forall i j k,
            in_shape (table_shape eEl eq2 emX) i j k = true ->
            elem (histogram_of eEl eq2 emX rEl rq2 rmX (df1 ++ ev :: df2)) i j k
            = elem (histogram_of eEl eq2 emX rEl rq2 rmX (df1 ++ df2)) i j k) as Hcell.
  { intros i j k Hin. unfold histogram_of. cbn [elem].
    rewrite !map_app. cbn [map].
    apply bincount3_skip; [by rewrite !length_map|].
    unfold table_shape, in_shape in Hin.
    rewrite !andb_true_iff, !Nat.ltb_lt in Hin. destruct Hin as [[Hi Hj] Hk].
    unfold bin_numbers. intros [= E1 E2 E3].
    destruct Hun as [Hu|[Hu|Hu]].
    - destruct (bin_number_uncounted eEl rEl _ VEl REl Hu); lia.
    - destruct (bin_number_uncounted eq2 rq2 _ Vq2 Rq2 Hu); lia.
    - destruct (bin_number_uncounted emX rmX _ VmX RmX Hu); lia. }
  destruct (generate_hybrid_weights_cells self eEl eq2 emX rEl rq2 rmX
              (df1 ++ df2) other) as (W & HW & Hs & Hc); try done.
  destruct (generate_hybrid_weights_cells self eEl eq2 emX rEl rq2 rmX
              (df1 ++ ev :: df2) other) as (Wi & HWi & Hsi & Hci); try done.
  destruct (generate_hybrid_weights_cells self eEl eq2 emX rEl rq2 rmX
              other (df1 ++ df2)) as (We & HWe & Hse & Hce); try done.
  destruct (generate_hybrid_weights_cells self eEl eq2 emX rEl rq2 rmX
              other (df1 ++ ev :: df2)) as (We' & HWe' & Hse' & Hce'); try done.
  exists (histogram_of eEl eq2 emX rEl rq2 rmX (df1 ++ df2)),
         (histogram_of eEl eq2 emX rEl rq2 rmX (df1 ++ ev :: df2)), W, Wi, We.
  split; [by apply histogram_valid|]. split; [by apply histogram_valid|].
  repeat (split; [done|]). repeat split.
  - intros i j k. unfold getitem3. cbn [histogram_of shape].
    destruct (in_shape _ i j k) eqn:Hin; [|done]. by rewrite Hcell.
  - intros i j k. unfold getitem3. rewrite Hs, Hsi.
    destruct (in_shape _ i j k) eqn:Hin; [|done].
    by rewrite Hc, Hci, Hcell.
  - intros i j k. rewrite HWe'. cbn [rbind]. unfold getitem3. rewrite Hse, Hse'.
    destruct (in_shape _ i j k) eqn:Hin; [|done].
    by rewrite Hce, Hce', Hcell.
Qed.

Lemma uncounted_event_ignored_witness :
  has_binning hybrid012 edges012 edges012 edges012 /\
  valid_edges edges012 /\
  uncounted edges012 (q2 (mk_event 1 5 1 7)) /\
  exists H H' W W_incl W_exc,
    histogram hybrid012 ([mk_event 0 0 0 1] ++ [mk_event 1 1 1 2])
    = Ok (H, (edges012, edges012, edges012)) /\
    histogram hybrid012 ([mk_event 0 0 0 1] ++ mk_event 1 5 1 7 :: [mk_event 1 1 1 2])
    = Ok (H', (edges012, edges012, edges012)) /\
    generate_hybrid_weights hybrid012 ([mk_event 0 0 0 1] ++ [mk_event 1 1 1 2]) []
    = Ok W /\
    generate_hybrid_weights hybrid012
      ([mk_event 0 0 0 1] ++ mk_event 1 5 1 7 :: [mk_event 1 1 1 2]) [] = Ok W_incl /\
    generate_hybrid_weights hybrid012 [] ([mk_event 0 0 0 1] ++ [mk_event 1 1 1 2])
    = Ok W_exc /\
    (forall i j k, getitem3 H' i j k = getitem3 H i j k) /\
    (forall i j k, getitem3 W_incl i j k = getitem3 W i j k) /\
    (forall i j k,
       (w' <- generate_hybrid_weights hybrid012 []
                ([mk_event 0 0 0 1] ++ mk_event 1 5 1 7 :: [mk_event 1 1 1 2]) ;;
        getitem3 w' i j k) = getitem3 W_exc i j k).
Proof.
  assert (uncounted edges012 (F64.of_Z 5)) as Hun.
  { right. right. eexists. split; reflexivity. }
  split; [exact hybrid012_binning|]. split; [exact edges012_valid|].
  split; [exact Hun|].
  apply (uncounted_event_ignored hybrid012 edges012 edges012 edges012
           [mk_event 0 0 0 1] [mk_event 1 1 1 2] [] (mk_event 1 5 1 7)).
  - exact hybrid012_binning.
  - exact edges012_valid.
  - exact edges012_valid.
  - exact edges012_valid.
  - right. left. exact Hun.
Defined.

(** An event every coordinate of which is counted adds its weight to one
    bin and leaves every other bin of the histogram as it was. *)
Theorem counted_event_one_bin (self : Hybrid) (eEl eq2 emX : list float)
    (df : list event) (ev : event) (i j k : nat) :
  has_binning self eEl eq2 emX ->
  valid_edges eEl -> valid_edges eq2 -> valid_edges emX ->
  counted_in eEl (El_B ev) i -> counted_in eq2 (q2 ev) j ->
  counted_in emX (mX ev) k ->
  exists H H',
    histogram self df = Ok (H, (eEl, eq2, emX)) /\
    histogram self (df ++ [ev]) = Ok (H', (eEl, eq2, emX)) /\
    shape H' = shape H /\
    forall i' j' k' h,
      getitem3 H i' j' k' = Ok h ->
      getitem3 H' i' j' k'
      = Ok (if decide ((i', j', k') = (i, j, k))
            then F64.add h (__weight__ ev) else h).
Proof.
  intros Hb VEl Vq2 VmX Hi Hj Hk.
  destruct (valid_edges_last _ VEl) as [rEl REl].
  destruct (valid_edges_last _ Vq2) as [rq2 Rq2].
  destruct (valid_edges_last _ VmX) as [rmX RmX].
  exists (histogram_of eEl eq2 emX rEl rq2 rmX df),
         (histogram_of eEl eq2 emX rEl rq2 rmX (df ++ [ev])).
  split; [by apply histogram_valid|]. split; [by apply histogram_valid|].
  split; [done|].
  intros i' j' k' h. unfold getitem3. cbn [histogram_of shape].
  destruct (in_shape _ i' j' k') eqn:Hin; [|done].
  intros [= <-]. f_equal. unfold histogram_of. cbn [elem].
  rewrite !map_app. cbn [map].
  rewrite bincount3_snoc by (by rewrite !length_map).
  assert (bin_numbers eEl eq2 emX rEl rq2 rmX ev = (S i, S j, S k)) as ->.
  { unfold bin_numbers.
    rewrite (bin_number_counted_in _ _ _ _ VEl REl Hi).
    rewrite (bin_number_counted_in _ _ _ _ Vq2 Rq2 Hj).
    by rewrite (bin_number_counted_in _ _ _ _ VmX RmX Hk). }
  destruct (decide ((i', j', k') = (i, j, k))) as [[= -> -> ->]|Hne].
  - by rewrite decide_True.
  - rewrite decide_False; [done|]. intros [= -> -> ->]. by apply Hne.
Qed.

Lemma counted_event_one_bin_witness :
  has_binning hybrid012 edges012 edges012 edges012 /\
  valid_edges edges012 /\
  counted_in edges012 (El_B (mk_event 0 1 2 5)) 0 /\
  counted_in edges012 (q2 (mk_event 0 1 2 5)) 1 /\
  counted_in edges012 (mX (mk_event 0 1 2 5)) 1 /\
  exists H H',
    histogram hybrid012 [mk_event 0 1 2 3] = Ok (H, (edges012, edges012, edges012)) /\
    histogram hybrid012 ([mk_event 0 1 2 3] ++ [mk_event 0 1 2 5])
    = Ok (H', (edges012, edges012, edges012)) /\
    shape H' = shape H /\
    forall i' j' k' h,
      getitem3 H i' j' k' = Ok h ->
      getitem3 H' i' j' k'
      = Ok (if decide ((i', j', k') = (0, 1, 1)%nat)
            then F64.add h (__weight__ (mk_event 0 1 2 5)) else h).
Proof.
  assert (counted_in edges012 (F64.of_Z 0) 0) as H0.
  { left. eexists _, _. repeat split; reflexivity. }
  assert (counted_in edges012 (F64.of_Z 1) 1) as H1.
  { left. eexists _, _. repeat split; reflexivity. }
  assert (counted_in edges012 (F64.of_Z 2) 1) as H2.
  { right. split; [eexists; split; reflexivity | reflexivity]. }
  split; [exact hybrid012_binning|]. split; [exact edges012_valid|].
  split; [exact H0|]. split; [exact H1|]. split; [exact H2|].
  apply (counted_event_one_bin hybrid012 edges012 edges012 edges012
           [mk_event 0 1 2 3] (mk_event 0 1 2 5) 0 1 1).
  - exact hybrid012_binning.
  - exact edges012_valid.
  - exact edges012_valid.
  - exact edges012_valid.
  - exact H0.
  - exact H1.
  - exact H2.
Defined.

(** A bin in which no event of either table is counted has weight exactly
    1: both histograms are 0 there and 0/0 is NaN.  In particular two empty
    tables give a table of ones. *)
Theorem unpopulated_bin_weight_one (self : Hybrid) (eEl eq2 emX : list float)
    (inclusive exclusive : list event) (i j k : nat) :
  has_binning self eEl eq2 emX ->
  valid_edges eEl -> valid_edges eq2 -> valid_edges emX ->
  in_shape (table_shape eEl eq2 emX) i j k = true ->
  (forall ev, ev ∈ inclusive ++ exclusive ->
     ~ (counted_in eEl (El_B ev) i /\ counted_in eq2 (q2 ev) j /\
        counted_in emX (mX ev) k)) ->
  exists W,
    generate_hybrid_weights self inclusive exclusive = Ok W /\
    getitem3 W i j k = Ok F64.one.
Proof.
  intros Hb VEl Vq2 VmX Hin Hno.
  destruct (valid_edges_last _ VEl) as [rEl REl].
  destruct (valid_edges_last _ Vq2) as [rq2 Rq2].
  destruct (valid_edges_last _ VmX) as [rmX RmX].
  destruct (generate_hybrid_weights_cells self eEl eq2 emX rEl rq2 rmX
              inclusive exclusive) as (W & HW & Hs & Hc); try done.
  exists W. split; [done|].
  rewrite getitem3_in_shape by (by rewrite Hs). f_equal. rewrite Hc.
  assert (forall df, (forall ev, ev ∈ df -> ev ∈ inclusive ++ exclusive) ->
            elem (histogram_of eEl eq2 emX rEl rq2 rmX df) i j k = F64.zero) as Hzero.
  { intros df Hdf. unfold histogram_of. cbn [elem].
    apply bincount3_no_hits. intros idx Hidx.
    apply list_elem_of_fmap in Hidx as (ev & -> & Hev).
    unfold bin_numbers. intros [= E1 E2 E3].
    unfold table_shape, in_shape in Hin.
    rewrite !andb_true_iff, !Nat.ltb_lt in Hin. destruct Hin as [[Hi Hj] Hk].
    apply (Hno ev (Hdf ev Hev)). repeat split.
    - by apply (bin_number_inv eEl rEl).
    - by apply (bin_number_inv eq2 rq2).
    - by apply (bin_number_inv emX rmX). }
  rewrite !Hzero.
  - reflexivity.
  - intros ev Hev. apply elem_of_app. by right.
  - intros ev Hev. apply elem_of_app. by left.
Qed.

Lemma unpopulated_bin_weight_one_witness :
  has_binning hybrid012 edges012 edges012 edges012 /\
  valid_edges edges012 /\
  in_shape (table_shape edges012 edges012 edges012) 1 1 0 = true /\
  (forall ev, ev ∈ [mk_event 0 0 0 4] ++ [] ->
     ~ (counted_in edges012 (El_B ev) 1 /\ counted_in edges012 (q2 ev) 1 /\
        counted_in edges012 (mX ev) 0)) /\
  exists W,
    generate_hybrid_weights hybrid012 [mk_event 0 0 0 4] [] = Ok W /\
    getitem3 W 1 1 0 = Ok F64.one.
Proof.
  assert (forall ev : event, ev ∈ [mk_event 0 0 0 4] ++ [] ->
     ~ (counted_in edges012 (El_B ev) 1 /\ counted_in edges012 (q2 ev) 1 /\
        counted_in edges012 (mX ev) 0)) as Hno.
  { intros ev Hev. cbn in Hev. apply list_elem_of_singleton in Hev. subst ev.
    intros [[(lo & hi & Hlo & _ & Hle & _)|[(e & He & Hv) _]] _].
    - injection Hlo as <-. vm_compute in Hle. discriminate.
    - injection He as <-. vm_compute in Hv. discriminate. }
  split; [exact hybrid012_binning|]. split; [exact edges012_valid|].
  split; [reflexivity|]. split; [exact Hno|].
  apply (unpopulated_bin_weight_one hybrid012 edges012 edges012 edges012
           [mk_event 0 0 0 4] [] 1 1 0).
  - exact hybrid012_binning.
  - exact edges012_valid.
  - exact edges012_valid.
  - exact edges012_valid.
  - reflexivity.
  - exact Hno.
Defined.

(** ** Hybrid.generate_hybrid_weights: the value of a populated bin *)

Section DivisionFacts.

Lemma div_eucl_div_mod (a b : Z) : Z.div_eucl a b = (a / b, a mod b).
Proof. unfold Z.div, Z.modulo. by destruct (Z.div_eucl a b). Qed.

(** A finite non-zero double divided by itself is 1. *)
Lemma div_self (s : bool) (m : positive) (e : Z) :
  F64.div (S754_finite s m e) (S754_finite s m e) = F64.one.
Proof.
  rewrite one_eq. unfold F64.div, SFdiv, SFdiv_core_binary.
  replace (Zdigits2 (Z.pos m) + e - (Zdigits2 (Z.pos m) + e)) with 0 by lia.
  rewrite Z.sub_diag.
  change (Z.min (fexp F64.prec F64.emax 0) 0) with (-53).
  change (0 - -53) with 53.
  cbv beta iota zeta.
  assert (Z.div_eucl (Z.shiftl (Z.pos m) 53) (Z.pos m) = (2 ^ 53, 0)) as ->.
  { rewrite Z.shiftl_mul_pow2 by lia. rewrite Z.mul_comm.
    rewrite div_eucl_div_mod. rewrite Z.div_mul by lia.
    by rewrite Z.mod_mul by lia. }
  cbv beta iota zeta.
  assert (new_location (Z.pos m) 0 = loc_Exact) as ->.
  { unfold new_location. by destruct (Z.even _). }
  destruct s; vm_compute; reflexivity.
Qed.

Lemma replaced_ratio_no_exclusive (hi he : float) :
  F64.isfinite hi = true -> F64.is_zero hi = false -> F64.is_zero he = true ->
  replaced (raw_ratio hi he) = F64.one.
Proof.
  intros Hf Hz Hez.
  destruct hi as [|?| |s m e]; try done. destruct he as [s'| | |]; try done.
  unfold raw_ratio. change (F64.sub (S754_finite s m e) (S754_zero s'))
    with (S754_finite s m e).
  rewrite div_self. unfold replaced. by rewrite one_eq.
Qed.

End DivisionFacts.

(** A bin whose inclusive content is finite and not zero and whose
    exclusive content is zero has weight exactly 1: the whole inclusive
    prediction of the bin is kept. *)
Theorem no_exclusive_weight_one (self : Hybrid) (eEl eq2 emX : list float)
    (inclusive exclusive : list event) :
  has_binning self eEl eq2 emX ->
  valid_edges eEl -> valid_edges eq2 -> valid_edges emX ->
  exists H_incl H_exc W,
    histogram self inclusive = Ok (H_incl, (eEl, eq2, emX)) /\
    histogram self exclusive = Ok (H_exc, (eEl, eq2, emX)) /\
    generate_hybrid_weights self inclusive exclusive = Ok W /\
    forall i j k hi he,
      getitem3 H_incl i j k = Ok hi -> getitem3 H_exc i j k = Ok he ->
      F64.isfinite hi = true -> F64.is_zero hi = false ->
      F64.is_zero he = true ->
      getitem3 W i j k = Ok F64.one.
Proof.
  intros Hb VEl Vq2 VmX.
  destruct (valid_edges_last _ VEl) as [rEl REl].
  destruct (valid_edges_last _ Vq2) as [rq2 Rq2].
  destruct (valid_edges_last _ VmX) as [rmX RmX].
  destruct (generate_hybrid_weights_cells self eEl eq2 emX rEl rq2 rmX
              inclusive exclusive) as (W & HW & Hs & Hc); try done.
  exists (histogram_of eEl eq2 emX rEl rq2 rmX inclusive),
         (histogram_of eEl eq2 emX rEl rq2 rmX exclusive), W.
  split; [by apply histogram_valid|]. split; [by apply histogram_valid|].
  split; [done|].
  intros i j k hi he. unfold getitem3. rewrite Hs. cbn [histogram_of shape].
  destruct (in_shape _ i j k); [|done].
  intros [= <-] [= <-] Hf Hz Hez. f_equal. rewrite Hc.
  by apply replaced_ratio_no_exclusive.
Qed.

Lemma no_exclusive_weight_one_witness :
  has_binning hybrid012 edges012 edges012 edges012 /\
  valid_edges edges012 /\
  exists H_incl H_exc W,
    histogram hybrid012 [mk_event 0 0 0 10; mk_event 0 0 0 (-3)]
    = Ok (H_incl, (edges012, edges012, edges012)) /\
    histogram hybrid012 [mk_event 1 1 1 2]
    = Ok (H_exc, (edges012, edges012, edges012)) /\
    generate_hybrid_weights hybrid012 [mk_event 0 0 0 10; mk_event 0 0 0 (-3)]
      [mk_event 1 1 1 2] = Ok W /\
    forall i j k hi he,
      getitem3 H_incl i j k = Ok hi -> getitem3 H_exc i j k = Ok he ->
      F64.isfinite hi = true -> F64.is_zero hi = false ->
      F64.is_zero he = true ->
      getitem3 W i j k = Ok F64.one.
Proof.
  split; [exact hybrid012_binning|]. split; [exact edges012_valid|].
  apply (no_exclusive_weight_one hybrid012 edges012 edges012 edges012
           [mk_event 0 0 0 10; mk_event 0 0 0 (-3)] [mk_event 1 1 1 2]).
  - exact hybrid012_binning.
  - exact edges012_valid.
  - exact edges012_valid.
  - exact edges012_valid.
Defined.

Example no_exclusive_example :
  (h <- histogram hybrid012 [mk_event 0 0 0 10; mk_event 0 0 0 (-3)] ;;
   getitem3 (fst h) 0 0 0) = Ok (F64.of_Z 7) /\
  (W <- generate_hybrid_weights hybrid012 [mk_event 0 0 0 10; mk_event 0 0 0 (-3)]
          [mk_event 1 1 1 2] ;;
   getitem3 W 0 0 0) = Ok F64.one.
Proof. split; vm_compute; reflexivity. Qed.

(** ** Edge sequences that are not increasing *)

(** Some edge is greater than the edge after it. *)
Definition has_descent (edges : list float) : Prop :=
  exists n a b, edges !! n = Some a /\ edges !! S n = Some b /\ F64.gtb a b = true.

Fixpoint decreasing_from (prev : float) (a : list float) : bool :=
  match a with
  | [] => true
  | e :: a' => F64.ltb e prev && decreasing_from e a'
  end.

Definition strictly_decreasing (edges : list float) : bool :=
  match edges with
  | [] => true
  | e :: rest => decreasing_from e rest
  end.

(** Edges that [digitize] accepts: strictly increasing, or strictly
    decreasing. *)
Definition strictly_monotone (edges : list float) : Prop :=
  strictly_increasing edges = true \/ strictly_decreasing edges = true.

Section MonotoneFacts.

Lemma nondecreasing_from_descent (prev : float) (l : list float) :
  has_descent (prev :: l) -> nondecreasing_from prev l = false.
Proof.
  revert prev. induction l as [|e l IH]; intros prev (n & a & b & Ha & Hb & Hgt).
  - by destruct n.
  - cbn. destruct n as [|n].
    + cbn in Ha, Hb. injection Ha as ->. injection Hb as ->. by rewrite Hgt.
    + destruct (F64.gtb prev e); [done|]. apply IH. by exists n, a, b.
Qed.

Lemma any_decreasing_descent (edges : list float) :
  has_descent edges -> any_decreasing edges = true.
Proof.
  destruct edges as [|e rest]; intros H.
  - by destruct H as ([|?] & ? & ? & ? & ? & ?).
  - cbn. by rewrite nondecreasing_from_descent.
Qed.

Lemma edges_of_num_array (edges : list float) (r : json * json) :
  edges_of (num_array edges) r
  = if any_decreasing edges then Raise ValueError else Ok edges.
Proof.
  unfold edges_of, num_array. fold (num_array edges).
  by rewrite asarray1_num_array.
Qed.

Lemma decreasing_nonincreasing (p : float) (a : list float) :
  decreasing_from p a = true -> nonincreasing_from p a = true.
Proof.
  revert p. induction a as [|x a IH]; intros p H; [done|].
  cbn in H. apply andb_true_iff in H as [Hxp Hx]. cbn.
  rewrite (ltb_asym _ _ Hxp). by apply IH.
Qed.

Lemma monotonicity_decreasing (edges : list float) :
  strictly_decreasing edges = true -> monotonicity edges <> 0.
Proof.
  destruct edges as [|a [|b l]]; [done..|]. cbn. intros H.
  apply andb_true_iff in H as [Hba Hb].
  assert (F64.eqb b a = false) as ->.
  { destruct (F64.eqb b a) eqn:E; [|done].
    by rewrite (eqb_not_ltb _ _ E) in Hba. }
  rewrite (ltb_asym _ _ Hba). by rewrite decreasing_nonincreasing.
Qed.

(** On accepted edges every index [digitize] gives is at most
    [len(edges)]. *)
Lemma digitize_monotone (edges : list float) :
  strictly_monotone edges ->
  exists f : float -> nat,
    (forall x, digitize x (num_array edges) = Ok (map f x)) /\
    (forall v, (f v <= length edges)%nat).
Proof.
  intros [Hinc|Hdec].
  - exists (searchsorted_right edges). split.
    + intros x. by apply digitize_increasing.
    + apply searchsorted_right_le.
  - pose proof (monotonicity_decreasing _ Hdec) as Hm.
    destruct (monotonicity edges) as [|p|p] eqn:E; [done|..].
    + exists (searchsorted_right edges). split.
      * intros x. unfold digitize. rewrite asarray1_num_array. cbn [rbind].
        by rewrite E.
      * apply searchsorted_right_le.
    + exists (fun v => (length edges - searchsorted_right (rev edges) v)%nat). split.
      * intros x. unfold digitize. rewrite asarray1_num_array. cbn [rbind].
        by rewrite E.
      * intros v. lia.
Qed.

End MonotoneFacts.

(** When an edge sequence of the object has an edge greater than the edge
    after it, no weight table is built: [histogramdd] raises ValueError. *)
Theorem generate_rejects_descent (self : Hybrid) (eEl eq2 emX : list float)
    (inclusive exclusive : list event) :
  has_binning self eEl eq2 emX ->
  has_descent eEl \/ has_descent eq2 \/ has_descent emX ->
  generate_hybrid_weights self inclusive exclusive = Raise ValueError.
Proof.
  intros (HEl & Hq2 & HmX) Hd.
  unfold generate_hybrid_weights, histogramdd. rewrite HEl, Hq2, HmX.
  destruct (range_El_B self), (range_q2 self), (range_mX self).
  rewrite !edges_of_num_array.
  destruct (any_decreasing eEl) eqn:EEl; [done|].
  destruct (any_decreasing eq2) eqn:Eq2; [done|].
  destruct (any_decreasing emX) eqn:EmX; [done|].
  destruct Hd as [H|[H|H]]; apply any_decreasing_descent in H; congruence.
Qed.

(** The object built from the file with the mass edges 1, 0. *)
Definition hybrid_mX10 : Hybrid :=
  {| bins_mX := num_array edges10;
     bins_El_B := num_array edges012;
     bins_q2 := num_array edges012;
     range_mX := (JNum (F64.of_Z 1), JNum (F64.of_Z 0));
     range_El_B := (JNum (F64.of_Z 0), JNum (F64.of_Z 1));
     range_q2 := (JNum (F64.of_Z 0), JNum (F64.of_Z 1)) |}.

Lemma generate_rejects_descent_witness :
  init JNull (Some (config_of edges012 edges012 edges10)) = Ok hybrid_mX10 /\
  has_binning hybrid_mX10 edges012 edges012 edges10 /\
  has_descent edges10 /\
  generate_hybrid_weights hybrid_mX10 [mk_event 0 0 0 1] [] = Raise ValueError.
Proof.
  assert (has_descent edges10) as Hd.
  { exists 0%nat. eexists _, _. repeat split; reflexivity. }
  split; [reflexivity|]. split; [by repeat split|]. split; [exact Hd|].
  apply (generate_rejects_descent hybrid_mX10 edges012 edges012 edges10
           [mk_event 0 0 0 1] []).
  - by repeat split.
  - right. right. exact Hd.
Defined.

(** The lookup does not reject decreasing edges: when each edge sequence is
    strictly increasing or strictly decreasing and the table has the shape
    of the binning, it returns one weight per row. *)
Theorem calculate_weight_accepts_decreasing (self : Hybrid)
    (eEl eq2 emX : list float) (T : ndarray3 float)
    (x : list (float * float * float)) :
  has_binning self eEl eq2 emX ->
  strictly_monotone eEl -> strictly_monotone eq2 -> strictly_monotone emX ->
  (1 <= length eEl)%nat -> (1 <= length eq2)%nat -> (1 <= length emX)%nat ->
  shape T = table_shape eEl eq2 emX ->
  exists ws, calculate_weight self x T = Ok ws /\ length ws = length x.
Proof.
  intros (HEl & Hq2 & HmX) MEl Mq2 MmX LEl Lq2 LmX HT.
  destruct (digitize_monotone _ MEl) as (f & Hf & Hfle).
  destruct (digitize_monotone _ Mq2) as (g & Hg & Hgle).
  destruct (digitize_monotone _ MmX) as (h & Hh & Hhle).
  unfold calculate_weight. rewrite HEl, Hq2, HmX, Hf, Hg, Hh. cbn [rbind].
  rewrite !map_map.
  rewrite (fancy_index_rows (pad_1_1 T F64.zero)
             (fun r => f (fst (fst r))) (fun r => g (snd (fst r)))
             (fun r => h (snd r))).
  - eexists. split; [done|]. by rewrite length_map.
  - intros r. unfold table_shape in HT.
    rewrite (shape_pad _ _ _ _ _ HT). unfold in_shape.
    pose proof (Hfle (fst (fst r))). pose proof (Hgle (snd (fst r))).
    pose proof (Hhle (snd r)).
    repeat (apply andb_true_iff; split); apply Nat.ltb_lt; lia.
Qed.

Lemma calculate_weight_accepts_decreasing_witness :
  has_binning hybrid_mX10 edges012 edges012 edges10 /\
  strictly_monotone edges012 /\ strictly_monotone edges10 /\
  (1 <= length edges012)%nat /\ (1 <= length edges10)%nat /\
  shape (ones (2, 2, 1)%nat) = table_shape edges012 edges012 edges10 /\
  exists ws,
    calculate_weight hybrid_mX10 [mk_row 0 0 0; mk_row 1 1 1] (ones (2, 2, 1)%nat)
    = Ok ws /\
    length ws = length [mk_row 0 0 0; mk_row 1 1 1].
Proof.
  assert (strictly_monotone edges012) as M1 by (left; reflexivity).
  assert (strictly_monotone edges10) as M2 by (right; reflexivity).
  split; [by repeat split|]. split; [exact M1|]. split; [exact M2|].
  split; [cbn; lia|]. split; [cbn; lia|]. split; [reflexivity|].
  apply (calculate_weight_accepts_decreasing hybrid_mX10 edges012 edges012 edges10
           (ones (2, 2, 1)%nat) [mk_row 0 0 0; mk_row 1 1 1]).
  - by repeat split.
  - exact M1.
  - exact M1.
  - exact M2.
  - cbn; lia.
  - cbn; lia.
  - cbn; lia.
  - reflexivity.
Defined.

(** With the mass edges 1, 0 the row at mass 0 reads the one mass bin and
    the row at mass 1, on the first edge, reads the padding. *)
Example decreasing_edges_example :
  calculate_weight hybrid_mX10 [mk_row 0 0 0; mk_row 1 1 1] (ones (2, 2, 1)%nat)
  = Ok [F64.one; F64.zero].
Proof. vm_compute. reflexivity. Qed.

(** ** Building a table and looking it up *)

(** The table that [generate_hybrid_weights] returns is always accepted by
    [calculate_weight] of the same object: the lookup returns one weight per
    row, and no weight is NaN or below 0. *)
Theorem lookup_of_generated_table (self : Hybrid) (eEl eq2 emX : list float)
    (inclusive exclusive : list event) (x : list (float * float * float)) :
  has_binning self eEl eq2 emX ->
  valid_edges eEl -> valid_edges eq2 -> valid_edges emX ->
  exists W ws,
    generate_hybrid_weights self inclusive exclusive = Ok W /\
    calculate_weight self x W = Ok ws /\
    length ws = length x /\
    forall n w, ws !! n = Some w ->
                F64.isnan w = false /\ F64.leb F64.zero w = true.
Proof.
  intros Hb VEl Vq2 VmX.
  destruct (generate_hybrid_weights_spec self eEl eq2 emX inclusive exclusive)
    as (Hi & He & W & _ & _ & HW & Hs & Hc); try done.
  exists W, (lookup_row eEl eq2 emX W <$> x).
  split; [done|]. split; [by apply calculate_weight_rows|].
  split; [by rewrite length_fmap|].
  intros n w. rewrite list_lookup_fmap.
  destruct (x !! n) as [row|]; [|done]. cbn. intros [= <-].
  unfold lookup_row, pad_1_1. rewrite Hs. unfold table_shape. cbn [elem].
  destruct (_ && _).
  - rewrite Hc.
    destruct (replaced_not_nan_not_negative
                (raw_ratio (elem Hi (searchsorted_right eEl (fst (fst row)) - 1)
                                    (searchsorted_right eq2 (snd (fst row)) - 1)
                                    (searchsorted_right emX (snd row) - 1))
                           (elem He (searchsorted_right eEl (fst (fst row)) - 1)
                                    (searchsorted_right eq2 (snd (fst row)) - 1)
                                    (searchsorted_right emX (snd row) - 1))))
      as (H1 & _ & H3).
    by split.
  - by split.
Qed.

Lemma lookup_of_generated_table_witness :
  has_binning hybrid012 edges012 edges012 edges012 /\
  valid_edges edges012 /\
  exists W ws,
    generate_hybrid_weights hybrid012 [mk_event 0 0 0 (-1)] [mk_event 0 0 0 1] = Ok W /\
    calculate_weight hybrid012 [mk_row 0 0 0; mk_row 9 9 9] W = Ok ws /\
    length ws = length [mk_row 0 0 0; mk_row 9 9 9] /\
    forall n w, ws !! n = Some w ->
                F64.isnan w = false /\ F64.leb F64.zero w = true.
Proof.
  split; [exact hybrid012_binning|]. split; [exact edges012_valid|].
  apply (lookup_of_generated_table hybrid012 edges012 edges012 edges012
           [mk_event 0 0 0 (-1)] [mk_event 0 0 0 1] [mk_row 0 0 0; mk_row 9 9 9]).
  - exact hybrid012_binning.
  - exact edges012_valid.
  - exact edges012_valid.
  - exact edges012_valid.
Defined.

Example lookup_of_generated_table_example :
  (W <- generate_hybrid_weights hybrid012 [mk_event 0 0 0 (-1)] [mk_event 0 0 0 1] ;;
   calculate_weight hybrid012 [mk_row 0 0 0; mk_row 9 9 9] W)
  = Ok [F64.of_Z 2; F64.zero].
Proof. vm_compute. reflexivity. Qed.

(** ** Edges that rise and then fall *)

(** The sequence starts with a rise and has a descent later on. *)
Definition rises_then_falls (edges : list float) : Prop :=
  exists a b l, edges = a :: b :: l /\ F64.ltb a b = true /\ has_descent (b :: l).

Lemma monotonicity_rises_then_falls (edges : list float) :
  rises_then_falls edges -> monotonicity edges = 0.
Proof.
  intros (a & b & l & -> & Hab & Hd). cbn.
  assert (F64.eqb b a = false) as -> by (by apply ltb_not_eqb).
  rewrite Hab. by rewrite nondecreasing_from_descent.
Qed.

Lemma digitize_num_array (x edges : list float) :
  digitize x (num_array edges) = Raise ValueError \/
  exists l, digitize x (num_array edges) = Ok l.
Proof.
  unfold digitize. rewrite asarray1_num_array. cbn [rbind].
  destruct (monotonicity edges); eauto.
Qed.

(** When an edge sequence of the object rises and then falls, every lookup
    raises ValueError, whatever the rows and the table. *)
Theorem calculate_weight_rejects_rise_then_fall (self : Hybrid)
    (eEl eq2 emX : list float) (T : ndarray3 float)
    (x : list (float * float * float)) :
  has_binning self eEl eq2 emX ->
  rises_then_falls eEl \/ rises_then_falls eq2 \/ rises_then_falls emX ->
  calculate_weight self x T = Raise ValueError.
Proof.
  intros (HEl & Hq2 & HmX) Hbad.
  assert (forall edges cols, rises_then_falls edges ->
            digitize cols (num_array edges) = Raise ValueError) as Hrej.
  { intros edges cols H. unfold digitize. rewrite asarray1_num_array. cbn [rbind].
    by rewrite (monotonicity_rises_then_falls _ H). }
  unfold calculate_weight. rewrite HEl, Hq2, HmX.
  destruct (digitize_num_array (map (fun r => fst (fst r)) x) eEl) as [->|[dEl HdEl]];
    [done|].
  destruct (digitize_num_array (map (fun r => snd (fst r)) x) eq2) as [Eq2|[dq2 Hdq2]].
  { rewrite HdEl. cbn [rbind]. by rewrite Eq2. }
  destruct (digitize_num_array (map (fun r => snd r) x) emX) as [EmX|[dmX HdmX]].
  { rewrite HdEl, Hdq2. cbn [rbind]. by rewrite EmX. }
  destruct Hbad as [H|[H|H]].
  - by rewrite (Hrej _ _ H) in HdEl.
  - by rewrite (Hrej _ _ H) in Hdq2.
  - by rewrite (Hrej _ _ H) in HdmX.
Qed.

(** Edges 0, 2, 1. *)
Definition edges021 : list float := [F64.of_Z 0; F64.of_Z 2; F64.of_Z 1].

Definition hybrid_q2_021 : Hybrid :=
  {| bins_mX := num_array edges012;
     bins_El_B := num_array edges012;
     bins_q2 := num_array edges021;
     range_mX := (JNum (F64.of_Z 0), JNum (F64.of_Z 1));
     range_El_B := (JNum (F64.of_Z 0), JNum (F64.of_Z 1));
     range_q2 := (JNum (F64.of_Z 0), JNum (F64.of_Z 2)) |}.

Lemma calculate_weight_rejects_rise_then_fall_witness :
  init JNull (Some (config_of edges012 edges021 edges012)) = Ok hybrid_q2_021 /\
  has_binning hybrid_q2_021 edges012 edges021 edges012 /\
  rises_then_falls edges021 /\
  calculate_weight hybrid_q2_021 [mk_row 0 0 0] ones222 = Raise ValueError.
Proof.
  assert (rises_then_falls edges021) as Hbad.
  { eexists _, _, _. split; [reflexivity|]. split; [reflexivity|].
    exists 0%nat. eexists _, _. repeat split; reflexivity. }
  split; [reflexivity|]. split; [by repeat split|]. split; [exact Hbad|].
  apply (calculate_weight_rejects_rise_then_fall hybrid_q2_021
           edges012 edges021 edges012 ones222 [mk_row 0 0 0]).
  - by repeat split.
  - right. left. exact Hbad.
Defined.

(** ** Row-wise lookup in a table of any shape *)

Lemma rmapM_lookup {A B} (f : A -> result B) (l : list A) (ws : list B) :
  rmapM f l = Ok ws ->
  length ws = length l /\
  forall n a, l !! n = Some a -> exists w, ws !! n = Some w /\ f a = Ok w.
Proof.
  revert ws. induction l as [|a0 l IH]; intros ws H.
  - injection H as <-. split; [done|]. intros n a Hn. by destruct n.
  - cbn in H. destruct (f a0) as [b|] eqn:Eb; [|done]. cbn in H.
    destruct (rmapM f l) as [bs|] eqn:Ebs; [|done]. cbn in H.
    injection H as <-. destruct (IH bs eq_refl) as [Hlen Hall].
    split; [cbn; by rewrite Hlen|].
    intros [|n] a Hn.
    + injection Hn as <-. by exists b.
    + by apply Hall.
Qed.

(** Whatever the shape of the table: when the lookup of two coordinate
    arrays returns for both, each result has one weight per row, and the
    two results agree at every position where the arrays have the same
    row. *)
Theorem calculate_weight_rowwise_when_returns (self : Hybrid)
    (eEl eq2 emX : list float) (T : ndarray3 float)
    (x x' : list (float * float * float)) (ws ws' : list float) (n : nat) :
  has_binning self eEl eq2 emX ->
  strictly_increasing eEl = true -> strictly_increasing eq2 = true ->
  strictly_increasing emX = true ->
  calculate_weight self x T = Ok ws ->
  calculate_weight self x' T = Ok ws' ->
  x !! n = x' !! n ->
  length ws = length x /\ length ws' = length x' /\ ws !! n = ws' !! n.
Proof.
  intros Hb IEl Iq2 ImX Hws Hws' Hn.
  rewrite (calculate_weight_reads self eEl eq2 emX x T) in Hws by done.
  rewrite (calculate_weight_reads self eEl eq2 emX x' T) in Hws' by done.
  destruct (rmapM_lookup _ _ _ Hws) as [Hlen Hall].
  destruct (rmapM_lookup _ _ _ Hws') as [Hlen' Hall'].
  split; [done|]. split; [done|].
  destruct (x !! n) as [row|] eqn:E.
  - destruct (Hall n row E) as (w & -> & Hw).
    destruct (Hall' n row (eq_sym Hn)) as (w' & -> & Hw').
    congruence.
  - apply lookup_ge_None in E. symmetry in Hn. apply lookup_ge_None in Hn.
    rewrite (proj2 (lookup_ge_None ws n)) by lia.
    by rewrite (proj2 (lookup_ge_None ws' n)) by lia.
Qed.

Lemma calculate_weight_rowwise_when_returns_witness :
  has_binning hybrid012 edges012 edges012 edges012 /\
  strictly_increasing edges012 = true /\
  calculate_weight hybrid012 [mk_row 0 0 0] (ones (1, 2, 2)%nat) = Ok [F64.one] /\
  calculate_weight hybrid012 [mk_row 0 0 0; mk_row 1 0 0] (ones (1, 2, 2)%nat)
  = Ok [F64.one; F64.zero] /\
  [mk_row 0 0 0] !! 0%nat = [mk_row 0 0 0; mk_row 1 0 0] !! 0%nat /\
  length [F64.one] = length [mk_row 0 0 0] /\
  length [F64.one; F64.zero] = length [mk_row 0 0 0; mk_row 1 0 0] /\
  [F64.one] !! 0%nat = [F64.one; F64.zero] !! 0%nat.
Proof.
  split; [exact hybrid012_binning|]. split; [reflexivity|].
  split; [reflexivity|]. split; [reflexivity|].
  split; [reflexivity|].
  apply (calculate_weight_rowwise_when_returns hybrid012 edges012 edges012 edges012
           (ones (1, 2, 2)%nat) [mk_row 0 0 0] [mk_row 0 0 0; mk_row 1 0 0]
           [F64.one] [F64.one; F64.zero] 0).
  - exact hybrid012_binning.
  - reflexivity.
  - reflexivity.
  - reflexivity.
  - reflexivity.
  - reflexivity.
  - reflexivity.
Defined.
